(** * BNetworkInterface: a facade over the socket ioctl interface

    Shallow embedding of [src/kits/network/libnetapi/NetworkInterface.cpp].

    The translation unit marshals fixed-layout request records, issues one
    [ioctl] per operation on a throw-away datagram socket, and unmarshals the
    reply.  The kernel is an abstract, stateful environment; every method is
    a computation in a small monad that threads the kernel's state, records
    the system calls it makes, and may be undefined where the C++ code steps
    outside an object ([memcpy] with a length that does not fit). *)

From Stdlib Require Import ZArith List Bool Lia.
From Stdlib.Strings Require Import Byte.
Import ListNotations.
Open Scope Z_scope.

(** ** Machine integers *)

Definition to_uint32 (z : Z) : Z := z mod 2 ^ 32.
Definition to_int32 (z : Z) : Z := (z + 2 ^ 31) mod 2 ^ 32 - 2 ^ 31.

(** [status_t] is an [int32]; [B_OK] is its success value. *)
Definition status_t := Z.
Definition B_OK : status_t := 0.

(** ** Bytes, C strings and raw copies *)

Definition NUL : byte := x00.

Definition Z_of_byte (b : byte) : Z := Z.of_N (Byte.to_N b).
Definition byte_of_Z (z : Z) : byte :=
  match Byte.of_N (Z.to_N (z mod 256)) with
  | Some b => b
  | None => NUL
  end.

(** The string a [const char*] designates: the bytes before the first
    terminator of the memory it points to (memory that ends without one is
    read as ending the string). *)
Fixpoint c_str (p : list byte) : list byte :=
  match p with
  | [] => []
  | c :: p' => if Byte.eqb c NUL then [] else c :: c_str p'
  end.

Definition strlen (p : list byte) : nat := length (c_str p).

(** The copying loop of [strlcpy]:
    [for (i = 0; i < size - 1 && src[i]; i++) dst[i] = src[i]; dst[i] = 0;]
    with [room] the remaining [size - 1 - i]. *)
Fixpoint strlcpy_loop (dst src : list byte) (room : nat) {struct room}
  : list byte :=
  match room with
  | O => NUL :: tl dst
  | S room' =>
      match src with
      | [] => NUL :: tl dst
      | c :: src' =>
          if Byte.eqb c NUL then NUL :: tl dst
          else c :: strlcpy_loop (tl dst) src' room'
      end
  end.

(** [strlcpy(dst, src, size)]: the new contents of [dst].  With [size = 0]
    nothing is written. *)
Definition strlcpy (dst src : list byte) (size : nat) : list byte :=
  match size with
  | O => dst
  | S room => strlcpy_loop dst src room
  end.

(** [memcpy(dst, src, n)] into an object of [cap] bytes: the new contents of
    [dst], or [None] when [n] bytes do not fit the destination object or are
    not all there in the source object (the copy is then undefined). *)
Definition memcpy (dst src : list byte) (n cap : nat) : option (list byte) :=
  if (n <=? cap)%nat && (n <=? length src)%nat
  then Some (firstn n src ++ skipn n dst)
  else None.

(** An [int] in memory: four bytes, least significant first, as on the
    little-endian machines the system runs on. *)
Definition sizeof_int : nat := 4.

Fixpoint le_encode (n : nat) (v : Z) : list byte :=
  match n with
  | O => []
  | S n' => byte_of_Z v :: le_encode n' (v / 256)
  end.

Fixpoint le_decode (bs : list byte) : Z :=
  match bs with
  | [] => 0
  | b :: bs' => Z_of_byte b + 256 * le_decode bs'
  end.

(** Reading and writing an [int] member at the start of a block. *)
Definition load_int (block : list byte) : Z :=
  to_int32 (le_decode (firstn sizeof_int block)).
Definition store_int (v : Z) (block : list byte) : list byte :=
  le_encode sizeof_int v ++ skipn sizeof_int block.

(** ** Platform declarations

    The constants and layouts come from [<net/if.h>] and [<sys/sockio.h>],
    which are not part of this translation unit; they are parameters. *)

Class Platform := {
  (** [IF_NAMESIZE]: the size of an interface name buffer, terminator
      included. *)
  IF_NAMESIZE : nat;
  (** Size of the anonymous union of [struct ifreq], whose members
      ([ifr_addr], [ifr_flags], [ifr_index], [ifr_mtu], [ifr_type],
      [ifr_count], [ifr_stats]) all start at its first byte. *)
  IFR_IFRU_SIZE : nat;
  (** Size of each socket address block of [struct ifaliasreq]. *)
  IFRA_SOCKADDR_SIZE : nat;
  (** [sizeof(ifreq_stats)]. *)
  IFREQ_STATS_SIZE : nat;
  (** The link bit of the interface flags. *)
  IFF_LINK : Z
}.

Inductive SocketFamily := AF_INET | AF_LINK.
Inductive SocketType := SOCK_DGRAM.

(** The ioctl command codes this file issues. *)
Inductive IoctlOption :=
| SIOCGIFNAME | SIOCGIFINDEX
| SIOCGIFFLAGS | SIOCSIFFLAGS
| SIOCGIFMTU | SIOCSIFMTU
| SIOCGIFTYPE | SIOCGIFSTATS | SIOCGIFADDR
| B_SOCKET_COUNT_ALIASES | B_SOCKET_GET_ALIAS
| B_SOCKET_ADD_ALIAS | B_SOCKET_SET_ALIAS | B_SOCKET_REMOVE_ALIAS.

Definition IoctlOption_eqb (a b : IoctlOption) : bool :=
  match a, b with
  | SIOCGIFNAME, SIOCGIFNAME | SIOCGIFINDEX, SIOCGIFINDEX
  | SIOCGIFFLAGS, SIOCGIFFLAGS | SIOCSIFFLAGS, SIOCSIFFLAGS
  | SIOCGIFMTU, SIOCGIFMTU | SIOCSIFMTU, SIOCSIFMTU
  | SIOCGIFTYPE, SIOCGIFTYPE | SIOCGIFSTATS, SIOCGIFSTATS
  | SIOCGIFADDR, SIOCGIFADDR
  | B_SOCKET_COUNT_ALIASES, B_SOCKET_COUNT_ALIASES
  | B_SOCKET_GET_ALIAS, B_SOCKET_GET_ALIAS
  | B_SOCKET_ADD_ALIAS, B_SOCKET_ADD_ALIAS
  | B_SOCKET_SET_ALIAS, B_SOCKET_SET_ALIAS
  | B_SOCKET_REMOVE_ALIAS, B_SOCKET_REMOVE_ALIAS => true
  | _, _ => false
  end.

(** Modelled from the spec: [struct ifreq] is declared in [<net/if.h>], not
    in this translation unit; it is "a generic request record keyed by
    interface name carrying a union of flags/MTU/type/stats/address
    fields", kept here as the name buffer and the bytes of the union. *)
Record ifreq := {
  ifr_name : list byte;
  ifr_ifru : list byte
}.

Definition set_ifr_name (r : ifreq) (n : list byte) : ifreq :=
  {| ifr_name := n; ifr_ifru := ifr_ifru r |}.
Definition set_ifr_ifru (r : ifreq) (u : list byte) : ifreq :=
  {| ifr_name := ifr_name r; ifr_ifru := u |}.

(** The [int] members of the union, as the C++ code reads them. *)
Definition ifr_flags (r : ifreq) : Z := load_int (ifr_ifru r).
Definition ifr_index (r : ifreq) : Z := load_int (ifr_ifru r).
Definition ifr_mtu (r : ifreq) : Z := load_int (ifr_ifru r).
Definition ifr_type (r : ifreq) : Z := load_int (ifr_ifru r).
Definition ifr_count (r : ifreq) : Z := load_int (ifr_ifru r).
(** [ifr_addr] and [ifr_stats] designate the union's storage itself. *)
Definition ifr_addr (r : ifreq) : list byte := ifr_ifru r.
Definition ifr_stats (r : ifreq) : list byte := ifr_ifru r.

(** Assignment to an [int] member ([request.ifr_flags = flags] and the
    like); the conversion from [uint32] keeps the bits. *)
Definition set_ifr_int (r : ifreq) (v : Z) : ifreq :=
  set_ifr_ifru r (store_int (to_int32 v) (ifr_ifru r)).

(** Modelled from the spec: [struct ifaliasreq] is declared in
    [<net/if.h>] too; it is "an alias-specific request record carrying
    index, flags, and three socket-address blocks (address, mask,
    broadcast)", after the name buffer. *)
Record ifaliasreq := {
  ifra_name : list byte;
  ifra_index : Z;
  ifra_addr : list byte;
  ifra_mask : list byte;
  ifra_broadaddr : list byte;
  ifra_flags : Z
}.

(** ** System calls and their record *)

Inductive Request :=
| ReqIf (r : ifreq)
| ReqAlias (r : ifaliasreq).

(** What a run did to the kernel, in order.  An [ioctl] entry holds the
    request as passed, the request as the kernel left it, the returned
    value and [errno] as it stood when the call came back. *)
Inductive Event :=
| EvSocket (family : SocketFamily) (type : SocketType) (protocol : Z)
    (ret err : Z)
| EvIoctl (fd : Z) (option : IoctlOption) (request reply : Request)
    (ret err : Z)
| EvClose (fd : Z).

(** The environment the code runs in: the kernel behind [socket], [ioctl]
    and [close], the thread's [errno], and the indeterminate contents of
    automatic request records that are declared without an initialiser.
    [ioctl] is given the address of a request record and its size; the
    two request structures have a typed entry each, which returns the
    record as the kernel left it. *)
Class System := {
  World : Type;
  errno : World -> Z;
  sys_socket : SocketFamily -> SocketType -> Z -> World -> Z * World;
  sys_ioctl_ifreq : Z -> IoctlOption -> ifreq -> World -> Z * ifreq * World;
  sys_ioctl_ifaliasreq :
    Z -> IoctlOption -> ifaliasreq -> World -> Z * ifaliasreq * World;
  sys_close : Z -> World -> World;
  stack_ifreq : World -> ifreq;
  stack_ifaliasreq : World -> ifaliasreq
}.

(** The kernel's side of the contract the code relies on when it returns
    [errno] as a status: a failing call leaves a non-zero error number. *)
Definition sets_errno (sys : System) : Prop :=
  (forall f t p w, fst (sys_socket f t p w) < 0 ->
     errno (snd (sys_socket f t p w)) <> 0) /\
  (forall fd o r w, fst (fst (sys_ioctl_ifreq fd o r w)) < 0 ->
     errno (snd (sys_ioctl_ifreq fd o r w)) <> 0) /\
  (forall fd o r w, fst (fst (sys_ioctl_ifaliasreq fd o r w)) < 0 ->
     errno (snd (sys_ioctl_ifaliasreq fd o r w)) <> 0).

(** ** The monad of the methods: kernel state in, result, kernel state and
    the calls made out; [None] is undefined behaviour. *)

Section Monad.
Context {sys : System}.

Definition M (A : Type) : Type := World -> option (A * World * list Event).

Definition ret {A} (a : A) : M A := fun w => Some (a, w, []).

Definition bind {A B} (m : M A) (k : A -> M B) : M B :=
  fun w =>
    match m w with
    | None => None
    | Some (a, w1, e1) =>
        match k a w1 with
        | None => None
        | Some (b, w2, e2) => Some (b, w2, e1 ++ e2)
        end
    end.

Definition defined {A} (o : option A) : M A :=
  fun w => match o with Some a => Some (a, w, []) | None => None end.

Definition get_errno : M Z := fun w => Some (errno w, w, []).

Definition socket (f : SocketFamily) (t : SocketType) (p : Z) : M Z :=
  fun w =>
    let '(fd, w') := sys_socket f t p w in
    Some (fd, w', [EvSocket f t p fd (errno w')]).

Definition ioctl_ifreq (fd : Z) (o : IoctlOption) (r : ifreq)
  : M (Z * ifreq) :=
  fun w =>
    let '(rc, r', w') := sys_ioctl_ifreq fd o r w in
    Some ((rc, r'), w', [EvIoctl fd o (ReqIf r) (ReqIf r') rc (errno w')]).

Definition ioctl_ifaliasreq (fd : Z) (o : IoctlOption) (r : ifaliasreq)
  : M (Z * ifaliasreq) :=
  fun w =>
    let '(rc, r', w') := sys_ioctl_ifaliasreq fd o r w in
    Some ((rc, r'), w',
          [EvIoctl fd o (ReqAlias r) (ReqAlias r') rc (errno w')]).

Definition close (fd : Z) : M unit :=
  fun w => Some (tt, sys_close fd w, [EvClose fd]).

(** Modelled from the spec: [FileDescriptorCloser] comes from
    [<AutoDeleter.h>]; it is the "scoped-acquisition pattern" that
    "guarantees the descriptor is released" on every exit path.  Its
    destructor runs when the function returns, after the returned value
    has been computed. *)
Definition FileDescriptorCloser_release (socket : Z) : M unit :=
  close socket.

(** [ifreq request;] and [ifaliasreq request;] *)
Definition uninitialized_ifreq : M ifreq :=
  fun w => Some (stack_ifreq w, w, []).
Definition uninitialized_ifaliasreq : M ifaliasreq :=
  fun w => Some (stack_ifaliasreq w, w, []).
End Monad.

Notation "x <- c1 ;; c2" := (bind c1 (fun x => c2))
  (at level 61, c1 at next level, right associativity).
Notation "' pat <- c1 ;; c2" := (bind c1 (fun x => match x with pat => c2 end))
  (at level 61, pat pattern, c1 at next level, right associativity).
Notation "c1 ;; c2" := (bind c1 (fun _ => c2))
  (at level 61, right associativity).

(** ** BNetworkAddress

    The class is declared outside this translation unit; the code here uses
    its default constructor, [SockAddr()], [Length()] and
    [SetTo(const sockaddr&)]. *)

Class NetworkAddress := {
  BNetworkAddress : Type;
  (** [BNetworkAddress()] *)
  BNetworkAddress_new : BNetworkAddress;
  (** [SockAddr()]: the bytes of the socket address the object holds. *)
  SockAddr : BNetworkAddress -> list byte;
  (** [SetTo(const sockaddr&)]: the object after it is set from the socket
      address found at the given memory. *)
  BNetworkAddress_SetTo : BNetworkAddress -> list byte -> BNetworkAddress
}.

(** The length field of a socket address: its first byte. *)
Definition sa_len (sockaddr : list byte) : nat :=
  match sockaddr with
  | [] => O
  | b :: _ => N.to_nat (Byte.to_N b)
  end.

(** Modelled from the spec: [BNetworkAddress::Length()] is defined outside
    this translation unit; the socket-address blocks of a request are "of
    platform-dependent length derived from each address's own length
    field". *)
Definition Length {NA : NetworkAddress} (a : BNetworkAddress) : nat :=
  sa_len (SockAddr a).

(** ** The two classes of this file *)

Record BNetworkInterfaceAddress {NA : NetworkAddress} := {
  fIndex : Z;
  fFlags : Z;
  fAddress : BNetworkAddress;
  fMask : BNetworkAddress;
  fBroadcast : BNetworkAddress
}.
Arguments BNetworkInterfaceAddress : clear implicits.
Arguments BNetworkInterfaceAddress {NA}.

Record BNetworkInterface := {
  fName : list byte
}.

Section StaticFunctions.
Context {P : Platform} {NA : NetworkAddress} {sys : System}.

(** [BNetworkInterface::Name()], and the inline accessors of the address
    record. *)
Definition Name (this : BNetworkInterface) : list byte := fName this.
Definition Index (a : BNetworkInterfaceAddress) : Z := fIndex a.
Definition Address (a : BNetworkInterfaceAddress) := fAddress a.
Definition Mask (a : BNetworkInterfaceAddress) := fMask a.
Definition Broadcast (a : BNetworkInterfaceAddress) := fBroadcast a.

(** [do_ifaliasreq(name, option, address, readBack)].  The address record
    is passed by reference: the record as the call leaves it is returned
    with the status.  [Address()], [Mask()] and [Broadcast()] give
    references to the members of the record, so that reading back sets
    them in place. *)
Definition do_ifaliasreq (name : list byte) (option : IoctlOption)
    (address : BNetworkInterfaceAddress) (readBack : bool)
  : M (status_t * BNetworkInterfaceAddress) :=
  socket <- socket AF_INET SOCK_DGRAM 0 ;;
  if socket <? 0 then
    e <- get_errno ;; ret (e, address)
  else
    request <- uninitialized_ifaliasreq ;;
    let name' := strlcpy (ifra_name request) name IF_NAMESIZE in
    let index := Index address in
    let flags := fFlags address in
    addr <- defined (memcpy (ifra_addr request)
              (SockAddr (Address address)) (Length (Address address))
              IFRA_SOCKADDR_SIZE) ;;
    mask <- defined (memcpy (ifra_mask request)
              (SockAddr (Mask address)) (Length (Mask address))
              IFRA_SOCKADDR_SIZE) ;;
    broadaddr <- defined (memcpy (ifra_broadaddr request)
              (SockAddr (Broadcast address)) (Length (Broadcast address))
              IFRA_SOCKADDR_SIZE) ;;
    let request :=
      {| ifra_name := name'; ifra_index := index; ifra_addr := addr;
         ifra_mask := mask; ifra_broadaddr := broadaddr;
         ifra_flags := flags |} in
    '(rc, request) <- ioctl_ifaliasreq socket option request ;;
    if rc <? 0 then
      e <- get_errno ;;
      FileDescriptorCloser_release socket ;; ret (e, address)
    else
      let address :=
        if readBack then
          {| fIndex := fIndex address;
             fFlags := ifra_flags request;
             fAddress :=
               BNetworkAddress_SetTo (fAddress address) (ifra_addr request);
             fMask :=
               BNetworkAddress_SetTo (fMask address) (ifra_mask request);
             fBroadcast :=
               BNetworkAddress_SetTo (fBroadcast address)
                 (ifra_broadaddr request) |}
        else address in
      FileDescriptorCloser_release socket ;; ret (B_OK, address).

(** The overload for a [const] record: [readBack] takes its default,
    [false]. *)
Definition do_ifaliasreq_const (name : list byte) (option : IoctlOption)
    (address : BNetworkInterfaceAddress) : M status_t :=
  '(status, _) <- do_ifaliasreq name option address false ;; ret status.

(** [do_request(request, name, option)]; the request record is passed by
    reference and returned as the call leaves it. *)
Definition do_request (request : ifreq) (name : list byte)
    (option : IoctlOption) : M (status_t * ifreq) :=
  socket <- socket AF_INET SOCK_DGRAM 0 ;;
  if socket <? 0 then
    e <- get_errno ;; ret (e, request)
  else
    let request :=
      set_ifr_name request (strlcpy (ifr_name request) name IF_NAMESIZE) in
    '(rc, request) <- ioctl_ifreq socket option request ;;
    if rc <? 0 then
      e <- get_errno ;;
      FileDescriptorCloser_release socket ;; ret (e, request)
    else
      FileDescriptorCloser_release socket ;; ret (B_OK, request).
End StaticFunctions.

(** ** BNetworkInterfaceAddress *)

Module BNetworkInterfaceAddress.
Section Methods.
Context {P : Platform} {NA : NetworkAddress} {sys : System}.

(** [BNetworkInterfaceAddress()] *)
Definition new : BNetworkInterfaceAddress :=
  {| fIndex := 0; fFlags := 0;
     fAddress := BNetworkAddress_new;
     fMask := BNetworkAddress_new;
     fBroadcast := BNetworkAddress_new |}.

Definition SetAddress (this : BNetworkInterfaceAddress)
    (address : BNetworkAddress) : BNetworkInterfaceAddress :=
  {| fIndex := fIndex this; fFlags := fFlags this; fAddress := address;
     fMask := fMask this; fBroadcast := fBroadcast this |}.

Definition SetMask (this : BNetworkInterfaceAddress)
    (mask : BNetworkAddress) : BNetworkInterfaceAddress :=
  {| fIndex := fIndex this; fFlags := fFlags this;
     fAddress := fAddress this; fMask := mask;
     fBroadcast := fBroadcast this |}.

Definition SetBroadcast (this : BNetworkInterfaceAddress)
    (broadcast : BNetworkAddress) : BNetworkInterfaceAddress :=
  {| fIndex := fIndex this; fFlags := fFlags this;
     fAddress := fAddress this; fMask := fMask this;
     fBroadcast := broadcast |}.

Definition SetFlags (this : BNetworkInterfaceAddress) (flags : Z)
  : BNetworkInterfaceAddress :=
  {| fIndex := fIndex this; fFlags := flags; fAddress := fAddress this;
     fMask := fMask this; fBroadcast := fBroadcast this |}.

(** [SetTo(BNetworkInterface& interface, int32 index)] *)
Definition SetTo (this : BNetworkInterfaceAddress)
    (interface : BNetworkInterface) (index : Z)
  : M (status_t * BNetworkInterfaceAddress) :=
  let this :=
    {| fIndex := index; fFlags := fFlags this; fAddress := fAddress this;
       fMask := fMask this; fBroadcast := fBroadcast this |} in
  do_ifaliasreq (Name interface) B_SOCKET_GET_ALIAS this true.
End Methods.
End BNetworkInterfaceAddress.

(** ** BNetworkInterface *)

Module BNetworkInterface.
Section Methods.
Context {P : Platform} {NA : NetworkAddress} {sys : System}.

Definition Unset (this : BNetworkInterface) : BNetworkInterface :=
  {| fName := NUL :: tl (fName this) |}.

(** [SetTo(const char* name)] *)
Definition SetTo (this : BNetworkInterface) (name : list byte)
  : BNetworkInterface :=
  {| fName := strlcpy (fName this) name IF_NAMESIZE |}.

(** [SetTo(uint32 index)]; the empty string literal is one terminator. *)
Definition SetTo_index (this : BNetworkInterface) (index : Z)
  : M (status_t * BNetworkInterface) :=
  request <- uninitialized_ifreq ;;
  let request := set_ifr_int request index in
  '(status, request) <- do_request request [NUL] SIOCGIFNAME ;;
  if negb (status =? B_OK) then ret (status, this)
  else
    ret (B_OK,
         {| fName := strlcpy (fName this) (ifr_name request) IF_NAMESIZE |}).

(** The constructors run on the storage of the new object, whose contents
    are indeterminate. *)
Definition new (this : BNetworkInterface) : BNetworkInterface :=
  Unset this.
Definition new_name (this : BNetworkInterface) (name : list byte)
  : BNetworkInterface :=
  SetTo this name.
Definition new_index (this : BNetworkInterface) (index : Z)
  : M BNetworkInterface :=
  '(_, this) <- SetTo_index this index ;; ret this.

Definition Exists (this : BNetworkInterface) : M bool :=
  request <- uninitialized_ifreq ;;
  '(status, _) <- do_request request (Name this) SIOCGIFINDEX ;;
  ret (status =? B_OK).

Definition Flags (this : BNetworkInterface) : M Z :=
  request <- uninitialized_ifreq ;;
  '(status, request) <- do_request request (Name this) SIOCGIFFLAGS ;;
  if negb (status =? B_OK) then ret 0
  else ret (to_uint32 (ifr_flags request)).

Definition MTU (this : BNetworkInterface) : M Z :=
  request <- uninitialized_ifreq ;;
  '(status, request) <- do_request request (Name this) SIOCGIFMTU ;;
  if negb (status =? B_OK) then ret 0
  else ret (to_uint32 (ifr_mtu request)).

Definition Type_ (this : BNetworkInterface) : M Z :=
  request <- uninitialized_ifreq ;;
  '(status, request) <- do_request request (Name this) SIOCGIFTYPE ;;
  if negb (status =? B_OK) then ret 0
  else ret (to_uint32 (ifr_type request)).

(** [GetStats(ifreq_stats& stats)]: the statistics record is returned as
    the call leaves it. *)
Definition GetStats (this : BNetworkInterface) (stats : list byte)
  : M (status_t * list byte) :=
  request <- uninitialized_ifreq ;;
  '(status, request) <- do_request request (Name this) SIOCGIFSTATS ;;
  if negb (status =? B_OK) then ret (status, stats)
  else
    ret (B_OK, firstn IFREQ_STATS_SIZE (ifr_stats request)
               ++ skipn IFREQ_STATS_SIZE stats).

Definition HasLink (this : BNetworkInterface) : M bool :=
  flags <- Flags this ;;
  ret (negb (Z.land flags IFF_LINK =? 0)).

Definition SetFlags (this : BNetworkInterface) (flags : Z) : M status_t :=
  request <- uninitialized_ifreq ;;
  let request := set_ifr_int request flags in
  '(status, _) <- do_request request (Name this) SIOCSIFFLAGS ;;
  ret status.

Definition SetMTU (this : BNetworkInterface) (mtu : Z) : M status_t :=
  request <- uninitialized_ifreq ;;
  let request := set_ifr_int request mtu in
  '(status, _) <- do_request request (Name this) SIOCSIFMTU ;;
  ret status.

Definition CountAddresses (this : BNetworkInterface) : M Z :=
  request <- uninitialized_ifreq ;;
  '(status, request) <- do_request request (Name this)
                          B_SOCKET_COUNT_ALIASES ;;
  if negb (status =? B_OK) then ret 0
  else ret (ifr_count request).

(** [GetAddressAt(index, address)]: the record is passed by reference and
    returned as the call leaves it. *)
Definition GetAddressAt (this : BNetworkInterface) (index : Z)
    (address : BNetworkInterfaceAddress)
  : M (status_t * BNetworkInterfaceAddress) :=
  BNetworkInterfaceAddress.SetTo address this index.

Definition AddAddress (this : BNetworkInterface)
    (address : BNetworkInterfaceAddress) : M status_t :=
  do_ifaliasreq_const (Name this) B_SOCKET_ADD_ALIAS address.

Definition SetAddress (this : BNetworkInterface)
    (address : BNetworkInterfaceAddress) : M status_t :=
  do_ifaliasreq_const (Name this) B_SOCKET_SET_ALIAS address.

Definition RemoveAddress (this : BNetworkInterface)
    (address : BNetworkInterfaceAddress) : M status_t :=
  request <- uninitialized_ifreq ;;
  addr <- defined (memcpy (ifr_addr request) (SockAddr (Address address))
            (Length (Address address)) IFR_IFRU_SIZE) ;;
  let request := set_ifr_ifru request addr in
  '(status, _) <- do_request request (Name this) B_SOCKET_REMOVE_ALIAS ;;
  ret status.

Definition RemoveAddressAt (this : BNetworkInterface) (index : Z)
  : M status_t :=
  let address := BNetworkInterfaceAddress.new in
  '(status, address) <- GetAddressAt this index address ;;
  if negb (status =? B_OK) then ret status
  else RemoveAddress this address.

(** [GetHardwareAddress(BNetworkAddress& address)] *)
Definition GetHardwareAddress (this : BNetworkInterface)
    (address : BNetworkAddress) : M (status_t * BNetworkAddress) :=
  socket <- socket AF_LINK SOCK_DGRAM 0 ;;
  if socket <? 0 then
    e <- get_errno ;; ret (e, address)
  else
    request <- uninitialized_ifreq ;;
    let request :=
      set_ifr_name request
        (strlcpy (ifr_name request) (Name this) IF_NAMESIZE) in
    '(rc, request) <- ioctl_ifreq socket SIOCGIFADDR request ;;
    if rc <? 0 then
      e <- get_errno ;;
      FileDescriptorCloser_release socket ;; ret (e, address)
    else
      let address := BNetworkAddress_SetTo address (ifr_addr request) in
      FileDescriptorCloser_release socket ;; ret (B_OK, address).
End Methods.
End BNetworkInterface.

(** ** Describing a run

    Every operation of the file is one round trip: a datagram socket is
    opened, one [ioctl] is issued on it, and the socket is closed.  A round
    trip ends in one of three ways. *)

Inductive Outcome (R : Type) :=
| SocketFailed (err : Z)
| IoctlFailed (reply : R) (err : Z)
| IoctlDone (reply : R).
Arguments SocketFailed {R} err.
Arguments IoctlFailed {R} reply err.
Arguments IoctlDone {R} reply.

(** The status a round trip reports: the error number of the call that
    failed, as it was, or [B_OK]. *)
Definition status_of {R} (o : Outcome R) : status_t :=
  match o with
  | SocketFailed err | IoctlFailed _ err => err
  | IoctlDone _ => B_OK
  end.

Definition succeeded {R} (o : Outcome R) : bool :=
  match o with
  | IoctlDone _ => true
  | _ => false
  end.

(** The request record as the caller of a round trip finds it afterwards:
    untouched when no socket could be opened, else as the kernel left it. *)
Definition left_in {R} (o : Outcome R) (request : R) : R :=
  match o with
  | SocketFailed _ => request
  | IoctlFailed reply _ | IoctlDone reply => reply
  end.

(** [round_trip inj family option request evs o]: the calls [evs] are one
    round trip on a [family] datagram socket that, when the socket could be
    opened, passed [request] to the ioctl [option] and closed the socket;
    [o] is how it ended.  [inj] tells which request structure is used. *)
Inductive round_trip {R} (inj : R -> Request) (family : SocketFamily)
    (option : IoctlOption) (request : R) : list Event -> Outcome R -> Prop :=
| rt_socket_failed fd err :
    fd < 0 ->
    round_trip inj family option request
      [EvSocket family SOCK_DGRAM 0 fd err] (SocketFailed err)
| rt_ioctl_failed fd err0 reply rc err :
    0 <= fd -> rc < 0 ->
    round_trip inj family option request
      [EvSocket family SOCK_DGRAM 0 fd err0;
       EvIoctl fd option (inj request) (inj reply) rc err;
       EvClose fd]
      (IoctlFailed reply err)
| rt_ioctl_done fd err0 reply rc err :
    0 <= fd -> 0 <= rc ->
    round_trip inj family option request
      [EvSocket family SOCK_DGRAM 0 fd err0;
       EvIoctl fd option (inj request) (inj reply) rc err;
       EvClose fd]
      (IoctlDone reply).

(** The name buffer a request carries. *)
Definition request_name (r : Request) : list byte :=
  match r with
  | ReqIf r => ifr_name r
  | ReqAlias r => ifra_name r
  end.

(** The call, when it is an [ioctl], carries the interface name [n]. *)
Definition carries_name (n : list byte) (ev : Event) : Prop :=
  match ev with
  | EvIoctl _ _ request _ _ _ => c_str (request_name request) = n
  | _ => True
  end.

(** The call is an [ioctl] with the command code [option]. *)
Definition is_ioctl (option : IoctlOption) (ev : Event) : bool :=
  match ev with
  | EvIoctl _ o _ _ _ _ => IoctlOption_eqb o option
  | _ => false
  end.

(** [emits Q m]: whenever [m] is defined, every call it made satisfies
    [Q]. *)
Definition emits {sys : System} {A} (Q : Event -> Prop) (m : M A) : Prop :=
  forall w a w' evs, m w = Some (a, w', evs) -> Forall Q evs.

(** [Q] restricts [ioctl] calls only: it holds of every call that opens or
    closes a socket. *)
Definition about_ioctls (Q : Event -> Prop) : Prop :=
  (forall f t p r e, Q (EvSocket f t p r e)) /\ (forall fd, Q (EvClose fd)).

Section Preconditions.
Context {P : Platform} {NA : NetworkAddress}.

(** The three copies of [do_ifaliasreq] stay inside their objects. *)
Definition fits (a : BNetworkAddress) : Prop :=
  (Length a <= IFRA_SOCKADDR_SIZE)%nat /\
  (Length a <= length (SockAddr a))%nat.

Definition well_formed (address : BNetworkInterfaceAddress) : Prop :=
  fits (fAddress address) /\ fits (fMask address) /\
  fits (fBroadcast address).
End Preconditions.

(** ** The operations of an interface handle, for statements about all of
    them *)

Section Operations.
Context {P : Platform} {NA : NetworkAddress} {sys : System}.

Inductive Operation :=
| OpExists | OpFlags | OpMTU | OpType | OpHasLink | OpCountAddresses
| OpGetStats (stats : list byte)
| OpSetFlags (flags : Z) | OpSetMTU (mtu : Z)
| OpGetAddressAt (index : Z) (address : BNetworkInterfaceAddress)
| OpAddAddress (address : BNetworkInterfaceAddress)
| OpSetAddress (address : BNetworkInterfaceAddress)
| OpRemoveAddress (address : BNetworkInterfaceAddress)
| OpRemoveAddressAt (index : Z)
| OpGetHardwareAddress (address : BNetworkAddress).

Definition discard {A} (m : M A) : M unit := _ <- m ;; ret tt.

Definition invoke (op : Operation) (this : BNetworkInterface) : M unit :=
  match op with
  | OpExists => discard (BNetworkInterface.Exists this)
  | OpFlags => discard (BNetworkInterface.Flags this)
  | OpMTU => discard (BNetworkInterface.MTU this)
  | OpType => discard (BNetworkInterface.Type_ this)
  | OpHasLink => discard (BNetworkInterface.HasLink this)
  | OpCountAddresses => discard (BNetworkInterface.CountAddresses this)
  | OpGetStats stats => discard (BNetworkInterface.GetStats this stats)
  | OpSetFlags flags => discard (BNetworkInterface.SetFlags this flags)
  | OpSetMTU mtu => discard (BNetworkInterface.SetMTU this mtu)
  | OpGetAddressAt index address =>
      discard (BNetworkInterface.GetAddressAt this index address)
  | OpAddAddress address =>
      discard (BNetworkInterface.AddAddress this address)
  | OpSetAddress address =>
      discard (BNetworkInterface.SetAddress this address)
  | OpRemoveAddress address =>
      discard (BNetworkInterface.RemoveAddress this address)
  | OpRemoveAddressAt index =>
      discard (BNetworkInterface.RemoveAddressAt this index)
  | OpGetHardwareAddress address =>
      discard (BNetworkInterface.GetHardwareAddress this address)
  end.

(** [RemoveAddressAt] as the specification words it: [GetAddressAt] on a
    fresh record, then [RemoveAddress]; the first status is the result
    when it is not a success, else the second's. *)
Definition RemoveAddressAt_composed (this : BNetworkInterface) (index : Z)
    (w : World) : option (status_t * World * list Event) :=
  match BNetworkInterface.GetAddressAt this index
          BNetworkInterfaceAddress.new w with
  | None => None
  | Some ((status, address), w1, evs1) =>
      if status =? B_OK then
        match BNetworkInterface.RemoveAddress this address w1 with
        | None => None
        | Some (status2, w2, evs2) => Some (status2, w2, evs1 ++ evs2)
        end
      else Some (status, w1, evs1)
  end.
End Operations.

(** ** A small kernel to run the code against

    A table of interfaces with their aliases; enough of the ioctl interface
    to exercise every method on concrete inputs. *)

Module Sim.
(** The names [loop] and [ghost0]. *)
Definition name_loop : list byte := [x6c; x6f; x6f; x70].
Definition name_ghost0 : list byte := [x67; x68; x6f; x73; x74; x30].

Fixpoint bytes_eqb (a b : list byte) : bool :=
  match a, b with
  | [], [] => true
  | x :: a', y :: b' => Byte.eqb x y && bytes_eqb a' b'
  | _, _ => false
  end.

#[export] Instance platform : Platform := {|
  IF_NAMESIZE := 32;
  IFR_IFRU_SIZE := 64;
  IFRA_SOCKADDR_SIZE := 128;
  IFREQ_STATS_SIZE := 56;
  IFF_LINK := 4096
|}.

(** Addresses are their socket address bytes; setting one keeps the
    bytes its length field announces. *)
#[export] Instance address : NetworkAddress := {|
  BNetworkAddress := list byte;
  BNetworkAddress_new := [];
  SockAddr := fun a => a;
  BNetworkAddress_SetTo := fun _ sockaddr => firstn (sa_len sockaddr) sockaddr
|}.

Record Alias := {
  al_addr : list byte;
  al_mask : list byte;
  al_broadaddr : list byte;
  al_flags : Z
}.

Record Interface := {
  i_name : list byte;
  i_index : Z;
  i_flags : Z;
  i_mtu : Z;
  i_type : Z;
  i_aliases : list Alias
}.

Record Kernel := {
  k_errno : Z;
  k_sockets : bool;
  k_interfaces : list Interface
}.

Definition ENOSOCK : Z := -1.
Definition ENODEV : Z := -2147483643.

Definition with_errno (e : Z) (k : Kernel) : Kernel :=
  {| k_errno := e; k_sockets := k_sockets k;
     k_interfaces := k_interfaces k |}.

Definition with_interfaces (l : list Interface) (k : Kernel) : Kernel :=
  {| k_errno := k_errno k; k_sockets := k_sockets k; k_interfaces := l |}.

Definition by_name (n : list byte) (i : Interface) : bool :=
  bytes_eqb (i_name i) n.
Definition by_index (x : Z) (i : Interface) : bool := i_index i =? x.

Definition update (n : list byte) (f : Interface -> Interface)
    (l : list Interface) : list Interface :=
  map (fun i => if by_name n i then f i else i) l.

Definition set_flags (v : Z) (i : Interface) : Interface :=
  {| i_name := i_name i; i_index := i_index i; i_flags := v;
     i_mtu := i_mtu i; i_type := i_type i; i_aliases := i_aliases i |}.
Definition set_mtu (v : Z) (i : Interface) : Interface :=
  {| i_name := i_name i; i_index := i_index i; i_flags := i_flags i;
     i_mtu := v; i_type := i_type i; i_aliases := i_aliases i |}.
Definition set_aliases (l : list Alias) (i : Interface) : Interface :=
  {| i_name := i_name i; i_index := i_index i; i_flags := i_flags i;
     i_mtu := i_mtu i; i_type := i_type i; i_aliases := l |}.

Definition same_address (sockaddr : list byte) (a : Alias) : bool :=
  bytes_eqb (firstn (sa_len sockaddr) sockaddr) (al_addr a).

Fixpoint remove_alias (sockaddr : list byte) (l : list Alias)
  : option (list Alias) :=
  match l with
  | [] => None
  | a :: l' =>
      if same_address sockaddr a then Some l'
      else option_map (cons a) (remove_alias sockaddr l')
  end.

Definition answer_int (r : ifreq) (v : Z) : ifreq :=
  set_ifr_ifru r (store_int v (ifr_ifru r)).

Definition serve_ifreq (o : IoctlOption) (r : ifreq) (k : Kernel)
  : option (ifreq * Kernel) :=
  let n := c_str (ifr_name r) in
  match o with
  | SIOCGIFNAME =>
      match find (by_index (ifr_index r)) (k_interfaces k) with
      | Some i => Some (set_ifr_name r (i_name i ++ [NUL]), k)
      | None => None
      end
  | SIOCSIFFLAGS =>
      match find (by_name n) (k_interfaces k) with
      | Some _ =>
          Some (r, with_interfaces
                     (update n (set_flags (to_uint32 (ifr_flags r)))
                        (k_interfaces k)) k)
      | None => None
      end
  | SIOCSIFMTU =>
      match find (by_name n) (k_interfaces k) with
      | Some _ =>
          Some (r, with_interfaces
                     (update n (set_mtu (ifr_mtu r)) (k_interfaces k)) k)
      | None => None
      end
  | B_SOCKET_REMOVE_ALIAS =>
      match find (by_name n) (k_interfaces k) with
      | Some i =>
          match remove_alias (ifr_addr r) (i_aliases i) with
          | Some l =>
              Some (r, with_interfaces
                         (update n (set_aliases l) (k_interfaces k)) k)
          | None => None
          end
      | None => None
      end
  | _ =>
      match find (by_name n) (k_interfaces k) with
      | Some i =>
          match o with
          | SIOCGIFINDEX => Some (answer_int r (i_index i), k)
          | SIOCGIFFLAGS => Some (answer_int r (i_flags i), k)
          | SIOCGIFMTU => Some (answer_int r (i_mtu i), k)
          | SIOCGIFTYPE => Some (answer_int r (i_type i), k)
          | B_SOCKET_COUNT_ALIASES =>
              Some (answer_int r (Z.of_nat (length (i_aliases i))), k)
          | _ => None
          end
      | None => None
      end
  end.

Definition alias_of (r : ifaliasreq) : Alias :=
  {| al_addr := firstn (sa_len (ifra_addr r)) (ifra_addr r);
     al_mask := firstn (sa_len (ifra_mask r)) (ifra_mask r);
     al_broadaddr :=
       firstn (sa_len (ifra_broadaddr r)) (ifra_broadaddr r);
     al_flags := ifra_flags r |}.

Definition serve_ifaliasreq (o : IoctlOption) (r : ifaliasreq) (k : Kernel)
  : option (ifaliasreq * Kernel) :=
  let n := c_str (ifra_name r) in
  match find (by_name n) (k_interfaces k) with
  | None => None
  | Some i =>
      match o with
      | B_SOCKET_GET_ALIAS =>
          if ifra_index r <? 0 then None
          else
            match nth_error (i_aliases i) (Z.to_nat (ifra_index r)) with
            | Some a =>
                Some ({| ifra_name := ifra_name r;
                         ifra_index := ifra_index r;
                         ifra_addr := al_addr a;
                         ifra_mask := al_mask a;
                         ifra_broadaddr := al_broadaddr a;
                         ifra_flags := al_flags a |}, k)
            | None => None
            end
      | B_SOCKET_ADD_ALIAS =>
          Some (r, with_interfaces
                     (update n (set_aliases (i_aliases i ++ [alias_of r]))
                        (k_interfaces k)) k)
      | _ => None
      end
  end.

(** What uninitialised storage holds. *)
Definition filler : list byte := repeat xaa 128.

#[export] Instance system : System := {|
  World := Kernel;
  errno := k_errno;
  sys_socket := fun _ _ _ k =>
    if k_sockets k then (3, k) else (-1, with_errno ENOSOCK k);
  sys_ioctl_ifreq := fun _ o r k =>
    match serve_ifreq o r k with
    | Some (r', k') => (0, r', k')
    | None => (-1, r, with_errno ENODEV k)
    end;
  sys_ioctl_ifaliasreq := fun _ o r k =>
    match serve_ifaliasreq o r k with
    | Some (r', k') => (0, r', k')
    | None => (-1, r, with_errno ENODEV k)
    end;
  sys_close := fun _ k => k;
  stack_ifreq := fun _ =>
    {| ifr_name := firstn 32 filler; ifr_ifru := firstn 64 filler |};
  stack_ifaliasreq := fun _ =>
    {| ifra_name := firstn 32 filler; ifra_index := 170;
       ifra_addr := filler; ifra_mask := filler;
       ifra_broadaddr := filler; ifra_flags := 170 |}
|}.

(** An IPv4 socket address: length 16, family 1, port 0, the four
    address bytes, padding. *)
Definition inet (a b c d : byte) : list byte :=
  [x10; x01; x00; x00; a; b; c; d] ++ repeat x00 8.

Definition loopback_alias : Alias :=
  {| al_addr := inet x7f x00 x00 x01;
     al_mask := inet xff x00 x00 x00;
     al_broadaddr := inet x7f xff xff xff;
     al_flags := 0 |}.

Definition loop : Interface :=
  {| i_name := name_loop; i_index := 1; i_flags := 4105;
     i_mtu := 16384; i_type := 24; i_aliases := [loopback_alias] |}.

Definition boot : Kernel :=
  {| k_errno := 0; k_sockets := true; k_interfaces := [loop] |}.

(** The same machine when no descriptor is left. *)
Definition exhausted : Kernel :=
  {| k_errno := 0; k_sockets := false; k_interfaces := [loop] |}.

(** The storage of a handle before its constructor has run. *)
Definition raw : BNetworkInterface := {| fName := firstn 32 filler |}.

Definition loop_handle : BNetworkInterface :=
  BNetworkInterface.new_name raw name_loop.
Definition ghost_handle : BNetworkInterface :=
  BNetworkInterface.new_name raw name_ghost0.

(** An address record the caller filled with the loopback alias. *)
Definition loopback_record : BNetworkInterfaceAddress :=
  {| fIndex := 0; fFlags := 0;
     fAddress := al_addr loopback_alias;
     fMask := al_mask loopback_alias;
     fBroadcast := al_broadaddr loopback_alias |}.

(** The same address in a record that differs in everything else. *)
Definition other_record : BNetworkInterfaceAddress :=
  {| fIndex := 5; fFlags := 3;
     fAddress := al_addr loopback_alias;
     fMask := inet xff xff xff x00;
     fBroadcast := inet x7f x00 x00 xff |}.

(** A name of forty characters. *)
Definition long_name : list byte := repeat x61 40.

(** What a computation returned, without the kernel state. *)
Definition result {A} (r : option (A * Kernel * list Event)) : option A :=
  option_map (fun x => fst (fst x)) r.
End Sim.

(** ** Further notions for the rest of the file *)

Section Handles.
Context {P : Platform}.

(** The name buffer holds a terminator within its [IF_NAMESIZE] bytes. *)
Definition terminated (this : BNetworkInterface) : Prop :=
  (strlen (fName this) < IF_NAMESIZE)%nat.

(** A handle as the class declares it: a buffer of [IF_NAMESIZE] bytes that
    holds a terminated name. *)
Definition valid (this : BNetworkInterface) : Prop :=
  length (fName this) = IF_NAMESIZE /\ terminated this.
End Handles.

(** Reading a list of calls as a sequence of round trips: each is either a
    [socket] that failed, or a [socket] that gave a descriptor, one [ioctl]
    on that descriptor and the [close] of that descriptor.  The result is
    the number of round trips, or [None] when the calls are not of that
    shape (a descriptor left open, used twice, or another one used). *)
Fixpoint round_trips (evs : list Event) : option nat :=
  match evs with
  | [] => Some O
  | EvSocket _ _ _ fd _ :: rest =>
      if fd <? 0 then option_map S (round_trips rest)
      else
        match rest with
        | EvIoctl fd1 _ _ _ _ _ :: EvClose fd2 :: rest' =>
            if (fd1 =? fd) && (fd2 =? fd)
            then option_map S (round_trips rest')
            else None
        | _ => None
        end
  | _ => None
  end.

(** Two computations that do the same in every state. *)
Definition same_run {sys : System} {A} (m1 m2 : M A) : Prop :=
  forall w, m1 w = m2 w.

Section Builders.
Context {NA : NetworkAddress}.

(** A record as a caller fills it before [AddAddress] or [SetAddress]:
    default-constructed, then set field by field. *)
Definition filled (address mask broadcast : BNetworkAddress) (flags : Z)
  : BNetworkInterfaceAddress :=
  BNetworkInterfaceAddress.SetFlags
    (BNetworkInterfaceAddress.SetBroadcast
       (BNetworkInterfaceAddress.SetMask
          (BNetworkInterfaceAddress.SetAddress
             BNetworkInterfaceAddress.new address)
          mask)
       broadcast)
    flags.
End Builders.

(** Whenever [m] is defined, the calls it made are [n] round trips. *)
Definition makes_round_trips {sys : System} {A} (n : nat) (m : M A) : Prop :=
  forall w a w' evs, m w = Some (a, w', evs) -> round_trips evs = Some n.

(** The command codes that ask the kernel to change an interface: set the
    flags or the MTU, add, replace or remove an alias. *)
Definition mutating (option : IoctlOption) : bool :=
  match option with
  | SIOCSIFFLAGS | SIOCSIFMTU
  | B_SOCKET_ADD_ALIAS | B_SOCKET_SET_ALIAS | B_SOCKET_REMOVE_ALIAS => true
  | _ => false
  end.

(** The call asks for no change. *)
Definition asks_no_change (ev : Event) : Prop :=
  match ev with
  | EvIoctl _ option _ _ _ _ => mutating option = false
  | _ => True
  end.

Section Queries.
Context {NA : NetworkAddress}.

(** The operations that only read: the [const] methods of the class,
    [GetStats], [GetAddressAt] and [GetHardwareAddress]. *)
Definition is_query (op : Operation) : bool :=
  match op with
  | OpExists | OpFlags | OpMTU | OpType | OpHasLink | OpCountAddresses
  | OpGetStats _ | OpGetAddressAt _ _ | OpGetHardwareAddress _ => true
  | OpSetFlags _ | OpSetMTU _ | OpAddAddress _ | OpSetAddress _
  | OpRemoveAddress _ | OpRemoveAddressAt _ => false
  end.
End Queries.

(** ** More inputs for the simulated kernel, and a kernel that accepts
    everything *)

Module Cases.
Import Sim.

(** An address whose length field announces 200 bytes and that holds
    two. *)
Definition overlong : list byte := [xc8; x01].

Definition overlong_record : BNetworkInterfaceAddress :=
  {| fIndex := 0; fFlags := 0; fAddress := overlong;
     fMask := al_mask loopback_alias;
     fBroadcast := al_broadaddr loopback_alias |}.

(** Storage that held zeroes, and the handle for [loop] made in it. *)
Definition zeroed : BNetworkInterface := {| fName := repeat x00 32 |}.
Definition loop_handle_in_zeroed : BNetworkInterface :=
  BNetworkInterface.new_name zeroed name_loop.

(** A kernel whose calls all succeed and leave the request as it was. *)
Definition accepting : System := {|
  World := unit;
  errno := fun _ => 0;
  sys_socket := fun _ _ _ w => (3, w);
  sys_ioctl_ifreq := fun _ _ r w => (0, r, w);
  sys_ioctl_ifaliasreq := fun _ _ r w => (0, r, w);
  sys_close := fun _ w => w;
  stack_ifreq := fun _ =>
    {| ifr_name := firstn 32 filler; ifr_ifru := firstn 64 filler |};
  stack_ifaliasreq := fun _ =>
    {| ifra_name := firstn 32 filler; ifra_index := 170;
       ifra_addr := filler; ifra_mask := filler;
       ifra_broadaddr := filler; ifra_flags := 170 |}
|}.
End Cases.

(** * Properties *)

(** ** Bytes and strings *)

Lemma Z_of_byte_of_Z v : Z_of_byte (byte_of_Z v) = v mod 256.
Proof.
  unfold Z_of_byte, byte_of_Z.
  assert (Hr : 0 <= v mod 256 < 256) by (apply Z.mod_pos_bound; lia).
  destruct (Byte.of_N (Z.to_N (v mod 256))) as [b|] eqn:E.
  - apply Byte.to_of_N in E. rewrite E. rewrite Z2N.id; lia.
  - apply Byte.of_N_None_iff in E. lia.
Qed.

Lemma length_le_encode n v : length (le_encode n v) = n.
Proof.
  revert v. induction n as [|n IH]; intro v; simpl; [|rewrite IH];
    reflexivity.
Qed.

Lemma le_decode_encode n v :
  le_decode (le_encode n v) = v mod 256 ^ Z.of_nat n.
Proof.
  revert v. induction n as [|n IH]; intro v.
  - simpl. now rewrite Z.mod_1_r.
  - cbn [le_encode le_decode]. rewrite Z_of_byte_of_Z, IH.
    rewrite Nat2Z.inj_succ, Z.pow_succ_r by lia.
    rewrite (Z.rem_mul_r v 256 (256 ^ Z.of_nat n)) by lia. reflexivity.
Qed.

(** An [int] member reads back what was stored in it. *)
Lemma load_store_int v block : load_int (store_int v block) = to_int32 v.
Proof.
  unfold load_int, store_int.
  rewrite firstn_app, length_le_encode, Nat.sub_diag, firstn_O, app_nil_r.
  rewrite firstn_all2 by (rewrite length_le_encode; lia).
  rewrite le_decode_encode. unfold to_int32, sizeof_int.
  change (256 ^ Z.of_nat 4) with (2 ^ 32).
  now rewrite Zplus_mod_idemp_l.
Qed.

Lemma to_int32_idem v : to_int32 (to_int32 v) = to_int32 v.
Proof.
  unfold to_int32.
  replace ((v + 2 ^ 31) mod 2 ^ 32 - 2 ^ 31 + 2 ^ 31)
    with ((v + 2 ^ 31) mod 2 ^ 32) by lia.
  now rewrite Z.mod_mod by lia.
Qed.

Lemma c_str_NUL l : c_str (NUL :: l) = [].
Proof. reflexivity. Qed.

Lemma c_str_strlcpy_loop dst src room :
  c_str (strlcpy_loop dst src room) = firstn room (c_str src).
Proof.
  revert dst src. induction room as [|room IH]; intros dst src.
  - apply c_str_NUL.
  - destruct src as [|c src]; [apply c_str_NUL|].
    cbn [strlcpy_loop c_str]. destruct (Byte.eqb c NUL) eqn:E.
    + apply c_str_NUL.
    + cbn [c_str firstn]. rewrite E. now rewrite IH.
Qed.

(** [strlcpy] leaves in [dst] the string of [src] cut to [size - 1]
    characters. *)
Lemma c_str_strlcpy dst src size :
  (0 < size)%nat ->
  c_str (strlcpy dst src size) = firstn (size - 1) (c_str src).
Proof.
  destruct size as [|room]; [lia|]. intros _.
  cbn [strlcpy]. rewrite c_str_strlcpy_loop.
  now replace (S room - 1)%nat with room by lia.
Qed.

Lemma length_strlcpy_loop dst src room :
  (room < length dst)%nat -> length (strlcpy_loop dst src room) = length dst.
Proof.
  revert dst src. induction room as [|room IH]; intros dst src H.
  - destruct dst; simpl in *; [lia | reflexivity].
  - destruct dst as [|d dst]; [simpl in H; lia|].
    destruct src as [|c src]; [reflexivity|].
    cbn [strlcpy_loop]. destruct (Byte.eqb c NUL); [reflexivity|].
    cbn [length tl]. rewrite IH; [reflexivity | simpl in H; lia].
Qed.

(** The buffer keeps its size. *)
Lemma length_strlcpy dst src size :
  (size <= length dst)%nat -> length (strlcpy dst src size) = length dst.
Proof.
  destruct size as [|room]; [reflexivity|]. intro H.
  apply length_strlcpy_loop. lia.
Qed.

Lemma firstn_firstn_same {A} n (l : list A) :
  firstn n (firstn n l) = firstn n l.
Proof. rewrite firstn_firstn. now rewrite Nat.min_id. Qed.

(** [strlcpy] reports no error: the length of the result is the smaller of
    the source's and of the room. *)
Lemma strlen_strlcpy dst src size :
  (0 < size)%nat ->
  strlen (strlcpy dst src size) = Nat.min (size - 1) (strlen src).
Proof.
  intro H. unfold strlen. rewrite c_str_strlcpy by exact H.
  apply length_firstn.
Qed.

(** ** Round trips *)

(** The calls of a round trip tell how it ended. *)
Lemma round_trip_outcome_unique {R} (inj : R -> Request) family option
    request evs (o1 o2 : Outcome R) :
  (forall a b, inj a = inj b -> a = b) ->
  round_trip inj family option request evs o1 ->
  round_trip inj family option request evs o2 ->
  o1 = o2.
Proof.
  intros Hinj H1 H2.
  destruct H1; inversion H2; subst; try lia; try reflexivity;
    match goal with H : inj _ = inj _ |- _ => apply Hinj in H; now subst end.
Qed.

Section Runs.
Context {P : Platform} {NA : NetworkAddress} {sys : System}.

(** What [do_request] does, whatever the kernel answers. *)
Lemma do_request_run request name option w :
  exists status w' evs o,
    do_request request name option w
      = Some ((status, left_in o request), w', evs) /\
    round_trip ReqIf AF_INET option
      (set_ifr_name request (strlcpy (ifr_name request) name IF_NAMESIZE))
      evs o /\
    status = status_of o /\
    (sets_errno sys -> (status =? B_OK) = succeeded o).
Proof.
  unfold do_request, bind, socket, ioctl_ifreq, get_errno,
    FileDescriptorCloser_release, close, ret.
  destruct (sys_socket AF_INET SOCK_DGRAM 0 w) as [fd w1] eqn:Es.
  destruct (fd <? 0) eqn:Efd.
  - apply Z.ltb_lt in Efd.
    do 3 eexists. exists (SocketFailed (errno w1)).
    split; [reflexivity|]. split; [now constructor|].
    split; [reflexivity|].
    intros (Hs & _ & _). specialize (Hs AF_INET SOCK_DGRAM 0 w).
    rewrite Es in Hs. simpl in *. apply Z.eqb_neq. auto.
  - apply Z.ltb_ge in Efd.
    match goal with |- context [sys_ioctl_ifreq ?a ?b ?c ?d] =>
      destruct (sys_ioctl_ifreq a b c d) as [[rc reply] w2] eqn:Ei end.
    destruct (rc <? 0) eqn:Erc.
    + apply Z.ltb_lt in Erc.
      do 3 eexists. exists (IoctlFailed reply (errno w2)).
      split; [reflexivity|]. split; [now constructor|].
      split; [reflexivity|].
      intros (_ & Hi & _).
      match type of Ei with sys_ioctl_ifreq ?a ?b ?c ?d = _ =>
        specialize (Hi a b c d) end.
      rewrite Ei in Hi. simpl in *. apply Z.eqb_neq. auto.
    + apply Z.ltb_ge in Erc.
      do 3 eexists. exists (IoctlDone reply).
      split; [reflexivity|]. split; [now constructor|].
      split; [reflexivity|]. reflexivity.
Qed.
End Runs.

(** ** What a computation can emit *)

Section Emits.
Context {P : Platform} {NA : NetworkAddress} {sys : System}.
Variable Q : Event -> Prop.
Hypothesis HQ : about_ioctls Q.

Lemma emits_ret {A} (a : A) : emits Q (ret a).
Proof. intros w a' w' evs [= _ _ <-]. constructor. Qed.

Lemma emits_bind {A B} (m : M A) (k : A -> M B) :
  emits Q m -> (forall a, emits Q (k a)) -> emits Q (bind m k).
Proof.
  intros Hm Hk w b w' evs. unfold bind.
  destruct (m w) as [[[a w1] e1]|] eqn:Em; [|discriminate].
  destruct (k a w1) as [[[b' w2] e2]|] eqn:Ek; [|discriminate].
  intros [= _ _ <-]. apply Forall_app.
  split; [eapply Hm | eapply Hk]; eassumption.
Qed.

Lemma emits_defined {A} (o : option A) : emits Q (defined o).
Proof.
  intros w a w' evs. unfold defined. destruct o; [|discriminate].
  intros [= _ _ <-]. constructor.
Qed.

Lemma emits_get_errno : emits Q get_errno.
Proof. intros w a w' evs [= _ _ <-]. constructor. Qed.

Lemma emits_uninitialized_ifreq : emits Q uninitialized_ifreq.
Proof. intros w a w' evs [= _ _ <-]. constructor. Qed.

Lemma emits_uninitialized_ifaliasreq : emits Q uninitialized_ifaliasreq.
Proof. intros w a w' evs [= _ _ <-]. constructor. Qed.

Lemma emits_socket f t p : emits Q (socket f t p).
Proof.
  intros w a w' evs. unfold socket.
  destruct (sys_socket f t p w) as [fd w1]. intros [= _ _ <-].
  constructor; [apply HQ | constructor].
Qed.

Lemma emits_close fd : emits Q (close fd).
Proof.
  intros w a w' evs [= _ _ <-]. constructor; [apply HQ | constructor].
Qed.

Lemma emits_ioctl_ifreq fd o r :
  (forall reply rc err, Q (EvIoctl fd o (ReqIf r) (ReqIf reply) rc err)) ->
  emits Q (ioctl_ifreq fd o r).
Proof.
  intros H w a w' evs. unfold ioctl_ifreq.
  destruct (sys_ioctl_ifreq fd o r w) as [[rc reply] w1].
  intros [= _ _ <-]. constructor; [apply H | constructor].
Qed.

Lemma emits_ioctl_ifaliasreq fd o r :
  (forall reply rc err,
      Q (EvIoctl fd o (ReqAlias r) (ReqAlias reply) rc err)) ->
  emits Q (ioctl_ifaliasreq fd o r).
Proof.
  intros H w a w' evs. unfold ioctl_ifaliasreq.
  destruct (sys_ioctl_ifaliasreq fd o r w) as [[rc reply] w1].
  intros [= _ _ <-]. constructor; [apply H | constructor].
Qed.

Lemma emits_if {A} (b : bool) (m1 m2 : M A) :
  emits Q m1 -> emits Q m2 -> emits Q (if b then m1 else m2).
Proof. now destruct b. Qed.

(** [do_request] emits what its one ioctl is allowed to be. *)
Lemma emits_do_request request name option :
  (forall fd reply rc err,
      Q (EvIoctl fd option
           (ReqIf (set_ifr_name request
                     (strlcpy (ifr_name request) name IF_NAMESIZE)))
           (ReqIf reply) rc err)) ->
  emits Q (do_request request name option).
Proof.
  intro H. unfold do_request.
  apply emits_bind; [apply emits_socket|]. intro fd.
  apply emits_if.
  - apply emits_bind; [apply emits_get_errno|]. intro. apply emits_ret.
  - apply emits_bind; [apply emits_ioctl_ifreq; apply H|].
    intros [rc reply]. apply emits_if.
    + apply emits_bind; [apply emits_get_errno|]. intro.
      apply emits_bind; [apply emits_close|]. intro. apply emits_ret.
    + apply emits_bind; [apply emits_close|]. intro. apply emits_ret.
Qed.

(** [do_ifaliasreq] likewise; the request it builds has the name copied
    into some buffer, and the index and flags of the record. *)
Lemma emits_do_ifaliasreq name option address readBack :
  (forall fd request reply rc err buffer,
      ifra_name request = strlcpy buffer name IF_NAMESIZE ->
      ifra_index request = fIndex address ->
      ifra_flags request = fFlags address ->
      Q (EvIoctl fd option (ReqAlias request) (ReqAlias reply) rc err)) ->
  emits Q (do_ifaliasreq name option address readBack).
Proof.
  intro H. unfold do_ifaliasreq.
  apply emits_bind; [apply emits_socket|]. intro fd.
  apply emits_if.
  - apply emits_bind; [apply emits_get_errno|]. intro. apply emits_ret.
  - apply emits_bind; [apply emits_uninitialized_ifaliasreq|]. intro g.
    apply emits_bind; [apply emits_defined|]. intro addr.
    apply emits_bind; [apply emits_defined|]. intro mask.
    apply emits_bind; [apply emits_defined|]. intro broadaddr.
    apply emits_bind;
      [apply emits_ioctl_ifaliasreq; intros;
       apply (H _ _ _ _ _ (ifra_name g)); reflexivity|].
    intros [rc reply]. apply emits_if.
    + apply emits_bind; [apply emits_get_errno|]. intro.
      apply emits_bind; [apply emits_close|]. intro. apply emits_ret.
    + apply emits_bind; [apply emits_close|]. intro. apply emits_ret.
Qed.
End Emits.

(** ** The methods built on [do_request] *)

Section RequestMethods.
Context {P : Platform} {NA : NetworkAddress} {sys : System}.

Ltac run_request H :=
  match goal with
  | |- context [do_request ?r0 ?n0 ?o0 ?w0] =>
      let status := fresh "status" in
      let Hok := fresh "Hok" in
      destruct (do_request_run r0 n0 o0 w0)
        as (status & ?w' & ?evs & ?o & -> & ?RT & -> & Hok);
      specialize (Hok H); cbn beta iota; try rewrite Hok
  end.

(** C1.  [Flags()], [MTU()] and [Type()] each make one round trip with
    their own query; they return the value the kernel left in the
    request when the ioctl succeeded, and zero when the socket could not
    be opened or the ioctl failed, whatever the error number was. *)
Theorem read_accessors_swallow_errors :
  sets_errno sys ->
  forall (this : BNetworkInterface) (w : World),
    let request :=
      set_ifr_name (stack_ifreq w)
        (strlcpy (ifr_name (stack_ifreq w)) (Name this) IF_NAMESIZE) in
    (exists w' evs o,
        round_trip ReqIf AF_INET SIOCGIFFLAGS request evs o /\
        BNetworkInterface.Flags this w
          = Some (match o with
                  | IoctlDone reply => to_uint32 (ifr_flags reply)
                  | _ => 0
                  end, w', evs)) /\
    (exists w' evs o,
        round_trip ReqIf AF_INET SIOCGIFMTU request evs o /\
        BNetworkInterface.MTU this w
          = Some (match o with
                  | IoctlDone reply => to_uint32 (ifr_mtu reply)
                  | _ => 0
                  end, w', evs)) /\
    (exists w' evs o,
        round_trip ReqIf AF_INET SIOCGIFTYPE request evs o /\
        BNetworkInterface.Type_ this w
          = Some (match o with
                  | IoctlDone reply => to_uint32 (ifr_type reply)
                  | _ => 0
                  end, w', evs)).
Proof.
  intros H this w request. subst request.
  unfold BNetworkInterface.Flags, BNetworkInterface.MTU,
    BNetworkInterface.Type_.
  repeat split; unfold bind at 1, uninitialized_ifreq; unfold bind at 1;
    run_request H; exists w', evs, o; (split; [exact RT|]);
    destruct o; cbn; now rewrite app_nil_r.
Qed.

(** C2.  [SetFlags(flags)] and [SetMTU(mtu)] each make one round trip
    with their own write request, which holds the value; the status is
    the error number of the call that failed, exactly as the kernel left
    it, or [B_OK] when none failed.  As a failing call leaves a non-zero
    error number, the status is [B_OK] if and only if the ioctl
    succeeded. *)
Theorem setters_return_the_error_number :
  forall (this : BNetworkInterface) (value : Z) (w : World),
    let request :=
      set_ifr_name (set_ifr_int (stack_ifreq w) value)
        (strlcpy (ifr_name (stack_ifreq w)) (Name this) IF_NAMESIZE) in
    ifr_flags request = to_int32 value /\
    ifr_mtu request = to_int32 value /\
    (exists w' evs o,
        round_trip ReqIf AF_INET SIOCSIFFLAGS request evs o /\
        BNetworkInterface.SetFlags this value w
          = Some (status_of o, w', evs) /\
        (sets_errno sys -> (status_of o = B_OK <-> succeeded o = true))) /\
    (exists w' evs o,
        round_trip ReqIf AF_INET SIOCSIFMTU request evs o /\
        BNetworkInterface.SetMTU this value w
          = Some (status_of o, w', evs) /\
        (sets_errno sys -> (status_of o = B_OK <-> succeeded o = true))).
Proof.
  intros this value w request. subst request.
  unfold BNetworkInterface.SetFlags, BNetworkInterface.SetMTU.
  assert (L : load_int (store_int (to_int32 value)
                          (ifr_ifru (stack_ifreq w))) = to_int32 value)
    by (rewrite load_store_int; apply to_int32_idem).
  split; [exact L|]. split; [exact L|].
  split; unfold bind at 1, uninitialized_ifreq; unfold bind at 1;
    match goal with
    | |- context [do_request ?r0 ?n0 ?o0 ?w0] =>
        destruct (do_request_run r0 n0 o0 w0)
          as (status & w' & evs & o & -> & RT & -> & Hok)
    end;
    exists w', evs, o; (split; [exact RT|]);
    (split; [destruct o; cbn; now rewrite app_nil_r|]);
    intro H; rewrite <- (Hok H); apply iff_sym, Z.eqb_eq.
Qed.

(** C5.  [CountAddresses()] makes one round trip with the count query; it
    returns the count the kernel left in the request when the ioctl
    succeeded and 0 when the socket could not be opened or the ioctl
    failed, which is also what it returns for an interface whose count
    is 0. *)
Theorem CountAddresses_zero_on_failure :
  sets_errno sys ->
  forall (this : BNetworkInterface) (w : World),
    let request :=
      set_ifr_name (stack_ifreq w)
        (strlcpy (ifr_name (stack_ifreq w)) (Name this) IF_NAMESIZE) in
    exists w' evs o,
      round_trip ReqIf AF_INET B_SOCKET_COUNT_ALIASES request evs o /\
      BNetworkInterface.CountAddresses this w
        = Some (match o with
                | IoctlDone reply => ifr_count reply
                | _ => 0
                end, w', evs).
Proof.
  intros H this w request. subst request.
  unfold BNetworkInterface.CountAddresses.
  unfold bind at 1, uninitialized_ifreq; unfold bind at 1.
  run_request H. exists w', evs, o. split; [exact RT|].
  destruct o; cbn; now rewrite app_nil_r.
Qed.

(** C8.  [Exists()] makes one round trip with the index query on the
    handle's name and returns true exactly when the ioctl succeeded:
    false when the socket could not be opened, false when the ioctl
    failed. *)
Theorem Exists_iff_lookup_succeeds :
  sets_errno sys ->
  forall (this : BNetworkInterface) (w : World),
    let request :=
      set_ifr_name (stack_ifreq w)
        (strlcpy (ifr_name (stack_ifreq w)) (Name this) IF_NAMESIZE) in
    exists w' evs o,
      round_trip ReqIf AF_INET SIOCGIFINDEX request evs o /\
      BNetworkInterface.Exists this w = Some (succeeded o, w', evs).
Proof.
  intros H this w request. subst request.
  unfold BNetworkInterface.Exists.
  unfold bind at 1, uninitialized_ifreq; unfold bind at 1.
  run_request H. exists w', evs, o. split; [exact RT|].
  cbn. now rewrite app_nil_r.
Qed.

(** C9.  [SetTo(uint32 index)] makes one round trip with the name query,
    the index stored in the request.  When the socket cannot be opened
    or the ioctl fails, the handle is left as it was and the status is
    that call's error number, which is not [B_OK]; the name is copied
    from the reply only when the ioctl succeeded. *)
Theorem SetTo_index_keeps_name_on_failure :
  sets_errno sys ->
  forall (this : BNetworkInterface) (index : Z) (w : World),
    let request :=
      set_ifr_name (set_ifr_int (stack_ifreq w) index)
        (strlcpy (ifr_name (stack_ifreq w)) [NUL] IF_NAMESIZE) in
    ifr_index request = to_int32 index /\
    exists w' evs o,
      round_trip ReqIf AF_INET SIOCGIFNAME request evs o /\
      BNetworkInterface.SetTo_index this index w
        = Some ((status_of o,
                 match o with
                 | IoctlDone reply =>
                     {| fName := strlcpy (fName this) (ifr_name reply)
                                   IF_NAMESIZE |}
                 | _ => this
                 end), w', evs) /\
      (succeeded o = false -> status_of o <> B_OK).
Proof.
  intros H this index w request. subst request.
  unfold BNetworkInterface.SetTo_index.
  split; [unfold ifr_index, set_ifr_name, set_ifr_int, set_ifr_ifru;
          cbn [ifr_ifru]; rewrite load_store_int; apply to_int32_idem|].
  unfold bind at 1, uninitialized_ifreq; unfold bind at 1.
  run_request H. exists w', evs, o. split; [exact RT|].
  split; [destruct o; cbn; now rewrite app_nil_r|].
  intros F E. apply Z.eqb_eq in E. congruence.
Qed.
End RequestMethods.

(** ** The methods built on [do_ifaliasreq] *)

Section AliasMethods.
Context {P : Platform} {NA : NetworkAddress} {sys : System}.

Lemma memcpy_fits dst src n cap :
  (n <= cap)%nat -> (n <= length src)%nat ->
  memcpy dst src n cap = Some (firstn n src ++ skipn n dst).
Proof.
  intros H1 H2. unfold memcpy.
  apply Nat.leb_le in H1. apply Nat.leb_le in H2. now rewrite H1, H2.
Qed.

(** What [do_ifaliasreq] does on a record whose addresses fit, whatever
    the kernel answers. *)
Lemma do_ifaliasreq_run name option address readBack w :
  well_formed address ->
  exists buffer request w' evs o,
    ifra_name request = strlcpy buffer name IF_NAMESIZE /\
    ifra_index request = fIndex address /\
    ifra_flags request = fFlags address /\
    round_trip ReqAlias AF_INET option request evs o /\
    do_ifaliasreq name option address readBack w
      = Some ((status_of o,
               match o with
               | IoctlDone reply =>
                   if readBack then
                     {| fIndex := fIndex address;
                        fFlags := ifra_flags reply;
                        fAddress := BNetworkAddress_SetTo
                                      (fAddress address) (ifra_addr reply);
                        fMask := BNetworkAddress_SetTo
                                   (fMask address) (ifra_mask reply);
                        fBroadcast := BNetworkAddress_SetTo
                                        (fBroadcast address)
                                        (ifra_broadaddr reply) |}
                   else address
               | _ => address
               end), w', evs).
Proof.
  intros ((A1 & A2) & (M1 & M2) & (B1 & B2)).
  unfold do_ifaliasreq, bind, socket, ioctl_ifaliasreq, get_errno,
    FileDescriptorCloser_release, close, ret, uninitialized_ifaliasreq,
    Address, Mask, Broadcast, Index.
  destruct (sys_socket AF_INET SOCK_DGRAM 0 w) as [fd w1] eqn:Es.
  destruct (fd <? 0) eqn:Efd.
  - apply Z.ltb_lt in Efd.
    exists (ifra_name (stack_ifaliasreq w1)).
    exists {| ifra_name := strlcpy (ifra_name (stack_ifaliasreq w1)) name
                             IF_NAMESIZE;
              ifra_index := fIndex address;
              ifra_addr := []; ifra_mask := []; ifra_broadaddr := [];
              ifra_flags := fFlags address |}.
    do 2 eexists. exists (SocketFailed (errno w1)).
    repeat (split; [reflexivity|]). split; [|reflexivity]. now constructor.
  - apply Z.ltb_ge in Efd.
    rewrite !memcpy_fits by assumption. cbn [defined].
    match goal with |- context [sys_ioctl_ifaliasreq ?a ?b ?c ?d] =>
      destruct (sys_ioctl_ifaliasreq a b c d) as [[rc reply] w2] eqn:Ei;
      exists (ifra_name (stack_ifaliasreq w1)); exists c
    end.
    destruct (rc <? 0) eqn:Erc.
    + apply Z.ltb_lt in Erc.
      do 2 eexists. exists (IoctlFailed reply (errno w2)).
      repeat (split; [reflexivity|]).
      split; [|reflexivity]. now constructor.
    + apply Z.ltb_ge in Erc.
      do 2 eexists. exists (IoctlDone reply).
      repeat (split; [reflexivity|]).
      split; [|reflexivity]. now constructor.
Qed.

(** C4.  [BNetworkInterfaceAddress::SetTo(interface, index)] makes one
    round trip with the alias query; the request holds the name of the
    interface, copied into its name buffer, and the index.  When the
    ioctl succeeds the status is [B_OK] and the flags, address, mask and
    broadcast of the record are set from what the kernel left in the
    request. *)
Theorem SetTo_queries_alias_and_reads_back :
  forall (this : BNetworkInterfaceAddress) (interface : BNetworkInterface)
         (index : Z) (w : World),
    well_formed this ->
    exists buffer request w' evs o this',
      BNetworkInterfaceAddress.SetTo this interface index w
        = Some ((status_of o, this'), w', evs) /\
      round_trip ReqAlias AF_INET B_SOCKET_GET_ALIAS request evs o /\
      ifra_name request = strlcpy buffer (Name interface) IF_NAMESIZE /\
      ((0 < IF_NAMESIZE)%nat ->
       c_str (ifra_name request)
         = firstn (IF_NAMESIZE - 1) (c_str (Name interface))) /\
      ifra_index request = index /\
      forall reply,
        o = IoctlDone reply ->
        status_of o = B_OK /\
        fFlags this' = ifra_flags reply /\
        fAddress this'
          = BNetworkAddress_SetTo (fAddress this) (ifra_addr reply) /\
        fMask this'
          = BNetworkAddress_SetTo (fMask this) (ifra_mask reply) /\
        fBroadcast this'
          = BNetworkAddress_SetTo (fBroadcast this) (ifra_broadaddr reply).
Proof.
  intros this interface index w WF.
  unfold BNetworkInterfaceAddress.SetTo.
  match goal with |- context [do_ifaliasreq ?n ?o ?a ?b w] =>
    destruct (do_ifaliasreq_run n o a b w WF)
      as (buffer & request & w' & evs & o' & Hn & Hi & _ & RT & E)
  end.
  exists buffer, request, w', evs, o'. eexists.
  split; [exact E|]. split; [exact RT|]. split; [exact Hn|].
  split; [intro; rewrite Hn; now apply c_str_strlcpy|].
  split; [exact Hi|].
  intros reply ->. cbn. repeat split.
Qed.

(** C10.  [BNetworkInterfaceAddress::SetTo(interface, index)] stores the
    index in the record before anything else: the request already holds
    it, and the record has it afterwards however the round trip ends.
    When the socket cannot be opened or the ioctl fails, and whenever the
    status is not [B_OK], the flags, address, mask and broadcast are what
    they were. *)
Theorem SetTo_sets_index_even_on_failure :
  forall (this : BNetworkInterfaceAddress) (interface : BNetworkInterface)
         (index : Z) (w : World),
    well_formed this ->
    exists request w' evs o this',
      BNetworkInterfaceAddress.SetTo this interface index w
        = Some ((status_of o, this'), w', evs) /\
      round_trip ReqAlias AF_INET B_SOCKET_GET_ALIAS request evs o /\
      ifra_index request = index /\
      fIndex this' = index /\
      (succeeded o = false \/ status_of o <> B_OK ->
       fFlags this' = fFlags this /\
       fAddress this' = fAddress this /\
       fMask this' = fMask this /\
       fBroadcast this' = fBroadcast this).
Proof.
  intros this interface index w WF.
  unfold BNetworkInterfaceAddress.SetTo.
  match goal with |- context [do_ifaliasreq ?n ?o ?a ?b w] =>
    destruct (do_ifaliasreq_run n o a b w WF)
      as (buffer & request & w' & evs & o' & Hn & Hi & _ & RT & E)
  end.
  exists request, w', evs, o'. eexists.
  split; [exact E|]. split; [exact RT|]. split; [exact Hi|].
  split; [now destruct o'|].
  destruct o'; cbn; intros [F|F]; try discriminate; try contradiction;
    repeat split.
Qed.
End AliasMethods.

(** ** Removing addresses *)

Section Removal.
Context {P : Platform} {NA : NetworkAddress} {sys : System}.

Lemma not_removal_about_ioctls :
  about_ioctls (fun ev => is_ioctl B_SOCKET_REMOVE_ALIAS ev = false).
Proof. split; reflexivity. Qed.

(** [GetAddressAt] never issues the removal request. *)
Lemma GetAddressAt_no_removal this index address :
  emits (fun ev => is_ioctl B_SOCKET_REMOVE_ALIAS ev = false)
    (BNetworkInterface.GetAddressAt this index address).
Proof.
  unfold BNetworkInterface.GetAddressAt, BNetworkInterfaceAddress.SetTo.
  apply emits_do_ifaliasreq; [apply not_removal_about_ioctls|].
  reflexivity.
Qed.

Lemma existsb_false_of_Forall {A} (f : A -> bool) (l : list A) :
  Forall (fun x => f x = false) l -> existsb f l = false.
Proof.
  induction 1 as [|x l Hx _ IH]; [reflexivity|].
  cbn. now rewrite Hx, IH.
Qed.

(** C3.  [RemoveAddressAt(index)] is [GetAddressAt(index, a)] on a fresh
    record followed by [RemoveAddress(a)].  When the first reports a
    status other than [B_OK], that status is the result and the calls
    made are those of [GetAddressAt] alone, none of which is the removal
    request; otherwise the result is that of [RemoveAddress] on the record
    [GetAddressAt] filled. *)
Theorem RemoveAddressAt_composes :
  forall (this : BNetworkInterface) (index : Z) (w : World),
    BNetworkInterface.RemoveAddressAt this index w
      = RemoveAddressAt_composed this index w /\
    (forall status address w1 evs1,
        BNetworkInterface.GetAddressAt this index
          BNetworkInterfaceAddress.new w
          = Some ((status, address), w1, evs1) ->
        status <> B_OK ->
        BNetworkInterface.RemoveAddressAt this index w
          = Some (status, w1, evs1) /\
        existsb (is_ioctl B_SOCKET_REMOVE_ALIAS) evs1 = false) /\
    (forall address w1 evs1,
        BNetworkInterface.GetAddressAt this index
          BNetworkInterfaceAddress.new w
          = Some ((B_OK, address), w1, evs1) ->
        BNetworkInterface.RemoveAddressAt this index w
          = match BNetworkInterface.RemoveAddress this address w1 with
            | Some (status, w2, evs2) => Some (status, w2, evs1 ++ evs2)
            | None => None
            end).
Proof.
  intros this index w.
  assert (E : BNetworkInterface.RemoveAddressAt this index w
              = RemoveAddressAt_composed this index w).
  { unfold BNetworkInterface.RemoveAddressAt, RemoveAddressAt_composed.
    unfold bind at 1.
    destruct (BNetworkInterface.GetAddressAt this index
                BNetworkInterfaceAddress.new w)
      as [[[[status address] w1] evs1]|]; [|reflexivity].
    destruct (status =? B_OK); cbn [negb].
    - reflexivity.
    - unfold ret. now rewrite app_nil_r. }
  split; [exact E|]. split.
  - intros status address w1 evs1 G Hs.
    rewrite E. unfold RemoveAddressAt_composed. rewrite G.
    apply Z.eqb_neq in Hs. rewrite Hs. split; [reflexivity|].
    apply existsb_false_of_Forall.
    exact (GetAddressAt_no_removal this index _ _ _ _ _ G).
  - intros address w1 evs1 G.
    rewrite E. unfold RemoveAddressAt_composed. now rewrite G.
Qed.

(** C6.  [RemoveAddress] depends on the address record through the bytes
    of its address alone: two records with the same address bytes give
    the same run, the same request included, whatever their mask,
    broadcast, flags and index.  When the bytes fit the request, the run
    is one round trip with the removal request, which holds those bytes
    and the handle's name. *)
Theorem RemoveAddress_keyed_by_address_bytes :
  forall (this : BNetworkInterface)
         (address1 address2 : BNetworkInterfaceAddress) (w : World),
    SockAddr (fAddress address1) = SockAddr (fAddress address2) ->
    BNetworkInterface.RemoveAddress this address1 w
      = BNetworkInterface.RemoveAddress this address2 w /\
    let sockaddr := SockAddr (fAddress address1) in
    let n := sa_len sockaddr in
    ((n <= IFR_IFRU_SIZE)%nat -> (n <= length sockaddr)%nat ->
     exists w' evs o,
       round_trip ReqIf AF_INET B_SOCKET_REMOVE_ALIAS
         {| ifr_name := strlcpy (ifr_name (stack_ifreq w)) (Name this)
                          IF_NAMESIZE;
            ifr_ifru := firstn n sockaddr
                        ++ skipn n (ifr_ifru (stack_ifreq w)) |}
         evs o /\
       BNetworkInterface.RemoveAddress this address1 w
         = Some (status_of o, w', evs)).
Proof.
  intros this address1 address2 w H.
  unfold BNetworkInterface.RemoveAddress, Address, Length.
  rewrite <- H. split; [reflexivity|].
  cbv zeta. intros H1 H2.
  unfold bind at 1, uninitialized_ifreq. unfold bind at 1.
  unfold ifr_addr. rewrite memcpy_fits by assumption. cbn [defined].
  unfold bind at 1.
  match goal with |- context [do_request ?r0 ?n0 ?o0 ?w0] =>
    destruct (do_request_run r0 n0 o0 w0)
      as (status & w' & evs & o & -> & RT & -> & _)
  end.
  exists w', evs, o. split; [exact RT|].
  cbn. now rewrite app_nil_r.
Qed.
End Removal.

(** ** Names *)

Section Names.
Context {P : Platform} {NA : NetworkAddress} {sys : System}.
Hypothesis size_positive : (0 < IF_NAMESIZE)%nat.
Variable n : list byte.

Lemma carries_name_about_ioctls : about_ioctls (carries_name n).
Proof. split; intros; exact I. Qed.

Lemma do_request_carries request name option :
  firstn (IF_NAMESIZE - 1) (c_str name) = n ->
  emits (carries_name n) (do_request request name option).
Proof.
  intro H. apply emits_do_request; [exact carries_name_about_ioctls|].
  intros. cbn. now rewrite c_str_strlcpy.
Qed.

Lemma do_ifaliasreq_carries name option address readBack :
  firstn (IF_NAMESIZE - 1) (c_str name) = n ->
  emits (carries_name n) (do_ifaliasreq name option address readBack).
Proof.
  intro H. apply emits_do_ifaliasreq; [exact carries_name_about_ioctls|].
  intros fd request reply rc err buffer Hn _ _. cbn.
  rewrite Hn. now rewrite c_str_strlcpy.
Qed.

Ltac emits_step H :=
  first
    [ apply emits_ret
    | apply emits_get_errno
    | apply emits_uninitialized_ifreq
    | apply emits_defined
    | apply emits_socket; exact carries_name_about_ioctls
    | apply emits_close; exact carries_name_about_ioctls
    | apply do_request_carries; exact H
    | apply do_ifaliasreq_carries; exact H
    | apply emits_ioctl_ifreq;
      intros; cbn; rewrite c_str_strlcpy by assumption; exact H
    | apply emits_if
    | apply emits_bind; [|intros]
    | match goal with
      | |- emits _ (match ?x with _ => _ end) => destruct x
      end ].

(** Every operation of a handle whose name, cut to the buffer, is [n]
    passes [n] to the kernel. *)
Lemma invoke_carries op this :
  firstn (IF_NAMESIZE - 1) (c_str (Name this)) = n ->
  emits (carries_name n) (invoke op this).
Proof.
  intro H.
  destruct op; unfold invoke, discard;
    unfold BNetworkInterface.Exists, BNetworkInterface.Flags,
      BNetworkInterface.MTU, BNetworkInterface.Type_,
      BNetworkInterface.HasLink, BNetworkInterface.Flags,
      BNetworkInterface.CountAddresses, BNetworkInterface.GetStats,
      BNetworkInterface.SetFlags, BNetworkInterface.SetMTU,
      BNetworkInterface.RemoveAddressAt,
      BNetworkInterface.GetAddressAt, BNetworkInterface.AddAddress,
      BNetworkInterface.SetAddress, BNetworkInterface.RemoveAddress,
      BNetworkInterface.GetHardwareAddress,
      BNetworkInterfaceAddress.SetTo, do_ifaliasreq_const;
    repeat emits_step H.
Qed.
End Names.

Section NameTruncation.
Context {P : Platform} {NA : NetworkAddress} {sys : System}.

(** C7.  Constructing a handle from a name, or [SetTo(name)], always
    yields a handle (there is no status to report): its name is the given
    one cut to [IF_NAMESIZE - 1] characters, so that it fits the buffer
    with its terminator, and every operation on the handle passes that
    cut name to the kernel. *)
Theorem SetTo_name_truncates :
  (0 < IF_NAMESIZE)%nat ->
  forall (this : BNetworkInterface) (name : list byte),
    let handle := BNetworkInterface.SetTo this name in
    let cut := firstn (IF_NAMESIZE - 1) (c_str name) in
    BNetworkInterface.new_name this name = handle /\
    c_str (Name handle) = cut /\
    strlen (Name handle) = Nat.min (IF_NAMESIZE - 1) (strlen name) /\
    (strlen (Name handle) < IF_NAMESIZE)%nat /\
    forall op : Operation, emits (carries_name cut) (invoke op handle).
Proof.
  intros Hsize this name handle cut.
  assert (Hn : c_str (Name handle) = cut)
    by (apply c_str_strlcpy; exact Hsize).
  assert (Hl : strlen (Name handle) = Nat.min (IF_NAMESIZE - 1) (strlen name))
    by (apply strlen_strlcpy; exact Hsize).
  split; [reflexivity|]. split; [exact Hn|]. split; [exact Hl|].
  split; [rewrite Hl; lia|].
  intro op. apply invoke_carries; [exact Hsize|].
  rewrite Hn. apply firstn_firstn_same.
Qed.
End NameTruncation.

(** ** Runs on the simulated kernel *)

Section Simulation.
Import Sim.

Lemma system_sets_errno : sets_errno system.
Proof.
  split; [|split].
  - intros f t p w. cbn. destruct (k_sockets w); cbn; [lia|discriminate].
  - intros fd o r w. cbn.
    destruct (serve_ifreq o r w) as [[r' k']|]; cbn; [lia|discriminate].
  - intros fd o r w. cbn.
    destruct (serve_ifaliasreq o r w) as [[r' k']|]; cbn;
      [lia|discriminate].
Qed.

Lemma loopback_record_well_formed : well_formed loopback_record.
Proof. repeat split; cbn; lia. Qed.

Example loop_handle_name : c_str (Name loop_handle) = name_loop.
Proof. reflexivity. Qed.

Example Flags_of_loop :
  result (BNetworkInterface.Flags loop_handle boot) = Some 4105.
Proof. reflexivity. Qed.

Example Flags_of_missing_interface :
  result (BNetworkInterface.Flags ghost_handle boot) = Some 0.
Proof. reflexivity. Qed.

Example MTU_without_sockets :
  result (BNetworkInterface.MTU loop_handle exhausted) = Some 0.
Proof. reflexivity. Qed.

Example SetMTU_then_MTU :
  result ((_ <- BNetworkInterface.SetMTU loop_handle 1500 ;;
           BNetworkInterface.MTU loop_handle) boot) = Some 1500.
Proof. reflexivity. Qed.

Example SetMTU_of_missing_interface :
  result (BNetworkInterface.SetMTU ghost_handle 1500 boot) = Some ENODEV.
Proof. reflexivity. Qed.

Example SetFlags_without_sockets :
  result (BNetworkInterface.SetFlags loop_handle 1 exhausted)
    = Some ENOSOCK.
Proof. reflexivity. Qed.

Example Exists_loop :
  result (BNetworkInterface.Exists loop_handle boot) = Some true /\
  result (BNetworkInterface.Exists ghost_handle boot) = Some false /\
  result (BNetworkInterface.Exists loop_handle exhausted) = Some false.
Proof. repeat split. Qed.

Example SetTo_index_found :
  option_map (fun r => (fst r, c_str (Name (snd r))))
    (result (BNetworkInterface.SetTo_index ghost_handle 1 boot))
    = Some (B_OK, name_loop).
Proof. reflexivity. Qed.

Example SetTo_index_not_found :
  result (BNetworkInterface.SetTo_index loop_handle 7 boot)
    = Some (ENODEV, loop_handle).
Proof. reflexivity. Qed.

Example GetAddressAt_reads_alias :
  result (BNetworkInterface.GetAddressAt loop_handle 0
            BNetworkInterfaceAddress.new boot)
    = Some (B_OK, loopback_record).
Proof. reflexivity. Qed.

Example RemoveAddressAt_then_count :
  result (BNetworkInterface.CountAddresses loop_handle boot) = Some 1 /\
  result ((_ <- BNetworkInterface.RemoveAddressAt loop_handle 0 ;;
           BNetworkInterface.CountAddresses loop_handle) boot) = Some 0.
Proof. split; reflexivity. Qed.

Example AddAddress_then_GetAddressAt :
  result ((_ <- BNetworkInterface.AddAddress loop_handle other_record ;;
           BNetworkInterface.GetAddressAt loop_handle 1
             BNetworkInterfaceAddress.new) boot)
    = Some (B_OK,
            {| fIndex := 1; fFlags := 3;
               fAddress := al_addr loopback_alias;
               fMask := inet xff xff xff x00;
               fBroadcast := inet x7f x00 x00 xff |}).
Proof. reflexivity. Qed.

Example long_name_is_cut :
  c_str (Name (BNetworkInterface.new_name raw long_name)) = repeat x61 31.
Proof. reflexivity. Qed.

(** The request an operation on a handle with an over-long name sends. *)
Example long_name_in_request :
  option_map
    (fun r => map (fun ev => match ev with
                             | EvIoctl _ _ request _ _ _ =>
                                 c_str (request_name request)
                             | _ => []
                             end) (snd r))
    (BNetworkInterface.Exists (BNetworkInterface.new_name raw long_name) boot)
    = Some [[]; repeat x61 31; []].
Proof. reflexivity. Qed.

(** *** The theorems at concrete inputs *)

Lemma read_accessors_swallow_errors_witness :
  sets_errno system /\
  let request :=
    set_ifr_name (stack_ifreq boot)
      (strlcpy (ifr_name (stack_ifreq boot)) (Name ghost_handle)
         IF_NAMESIZE) in
  (exists w' evs o,
      round_trip ReqIf AF_INET SIOCGIFFLAGS request evs o /\
      BNetworkInterface.Flags ghost_handle boot
        = Some (match o with
                | IoctlDone reply => to_uint32 (ifr_flags reply)
                | _ => 0
                end, w', evs)) /\
  (exists w' evs o,
      round_trip ReqIf AF_INET SIOCGIFMTU request evs o /\
      BNetworkInterface.MTU ghost_handle boot
        = Some (match o with
                | IoctlDone reply => to_uint32 (ifr_mtu reply)
                | _ => 0
                end, w', evs)) /\
  (exists w' evs o,
      round_trip ReqIf AF_INET SIOCGIFTYPE request evs o /\
      BNetworkInterface.Type_ ghost_handle boot
        = Some (match o with
                | IoctlDone reply => to_uint32 (ifr_type reply)
                | _ => 0
                end, w', evs)).
Proof.
  split; [exact system_sets_errno|].
  exact (read_accessors_swallow_errors system_sets_errno ghost_handle boot).
Defined.

Lemma setters_return_the_error_number_witness :
  sets_errno system /\
  exists w' evs o,
    round_trip ReqIf AF_INET SIOCSIFMTU
      (set_ifr_name (set_ifr_int (stack_ifreq exhausted) 1500)
         (strlcpy (ifr_name (stack_ifreq exhausted)) (Name loop_handle)
            IF_NAMESIZE)) evs o /\
    BNetworkInterface.SetMTU loop_handle 1500 exhausted
      = Some (status_of o, w', evs) /\
    (status_of o = B_OK <-> succeeded o = true).
Proof.
  split; [exact system_sets_errno|].
  destruct (setters_return_the_error_number (sys := system) loop_handle 1500
              exhausted) as (_ & _ & _ & w' & evs & o & RT & E & Hiff).
  exists w', evs, o. split; [exact RT|]. split; [exact E|].
  exact (Hiff system_sets_errno).
Defined.

Lemma CountAddresses_zero_on_failure_witness :
  sets_errno system /\
  let request :=
    set_ifr_name (stack_ifreq boot)
      (strlcpy (ifr_name (stack_ifreq boot)) (Name ghost_handle)
         IF_NAMESIZE) in
  exists w' evs o,
    round_trip ReqIf AF_INET B_SOCKET_COUNT_ALIASES request evs o /\
    BNetworkInterface.CountAddresses ghost_handle boot
      = Some (match o with
              | IoctlDone reply => ifr_count reply
              | _ => 0
              end, w', evs).
Proof.
  split; [exact system_sets_errno|].
  exact (CountAddresses_zero_on_failure system_sets_errno ghost_handle
           boot).
Defined.

Lemma Exists_iff_lookup_succeeds_witness :
  sets_errno system /\
  let request :=
    set_ifr_name (stack_ifreq boot)
      (strlcpy (ifr_name (stack_ifreq boot)) (Name loop_handle)
         IF_NAMESIZE) in
  exists w' evs o,
    round_trip ReqIf AF_INET SIOCGIFINDEX request evs o /\
    BNetworkInterface.Exists loop_handle boot
      = Some (succeeded o, w', evs).
Proof.
  split; [exact system_sets_errno|].
  exact (Exists_iff_lookup_succeeds system_sets_errno loop_handle boot).
Defined.

Lemma SetTo_index_keeps_name_on_failure_witness :
  sets_errno system /\
  let request :=
    set_ifr_name (set_ifr_int (stack_ifreq boot) 7)
      (strlcpy (ifr_name (stack_ifreq boot)) [NUL] IF_NAMESIZE) in
  ifr_index request = to_int32 7 /\
  exists w' evs o,
    round_trip ReqIf AF_INET SIOCGIFNAME request evs o /\
    BNetworkInterface.SetTo_index loop_handle 7 boot
      = Some ((status_of o,
               match o with
               | IoctlDone reply =>
                   {| fName := strlcpy (fName loop_handle)
                                 (ifr_name reply) IF_NAMESIZE |}
               | _ => loop_handle
               end), w', evs) /\
    (succeeded o = false -> status_of o <> B_OK).
Proof.
  split; [exact system_sets_errno|].
  exact (SetTo_index_keeps_name_on_failure system_sets_errno loop_handle 7
           boot).
Defined.

Lemma SetTo_queries_alias_and_reads_back_witness :
  well_formed loopback_record /\
  exists buffer request w' evs o this',
    BNetworkInterfaceAddress.SetTo loopback_record loop_handle 0 boot
      = Some ((status_of o, this'), w', evs) /\
    round_trip ReqAlias AF_INET B_SOCKET_GET_ALIAS request evs o /\
    ifra_name request = strlcpy buffer (Name loop_handle) IF_NAMESIZE /\
    ((0 < IF_NAMESIZE)%nat ->
     c_str (ifra_name request)
       = firstn (IF_NAMESIZE - 1) (c_str (Name loop_handle))) /\
    ifra_index request = 0 /\
    forall reply,
      o = IoctlDone reply ->
      status_of o = B_OK /\
      fFlags this' = ifra_flags reply /\
      fAddress this'
        = BNetworkAddress_SetTo (fAddress loopback_record)
            (ifra_addr reply) /\
      fMask this'
        = BNetworkAddress_SetTo (fMask loopback_record)
            (ifra_mask reply) /\
      fBroadcast this'
        = BNetworkAddress_SetTo (fBroadcast loopback_record)
            (ifra_broadaddr reply).
Proof.
  split; [exact loopback_record_well_formed|].
  exact (SetTo_queries_alias_and_reads_back (sys := system)
           loopback_record loop_handle 0 boot
           loopback_record_well_formed).
Defined.

Lemma SetTo_sets_index_even_on_failure_witness :
  well_formed loopback_record /\
  exists w' evs this',
    BNetworkInterfaceAddress.SetTo loopback_record ghost_handle 7 boot
      = Some ((ENODEV, this'), w', evs) /\
    fIndex this' = 7 /\
    fFlags this' = fFlags loopback_record /\
    fAddress this' = fAddress loopback_record /\
    fMask this' = fMask loopback_record /\
    fBroadcast this' = fBroadcast loopback_record.
Proof.
  split; [exact loopback_record_well_formed|].
  destruct (SetTo_sets_index_even_on_failure (sys := system)
              loopback_record ghost_handle 7 boot
              loopback_record_well_formed)
    as (request & w' & evs & o & this' & E & _ & _ & Hi & Hf).
  assert (Hs : status_of o = ENODEV).
  { generalize E. vm_compute. intro E'. now injection E'. }
  exists w', evs, this'. rewrite <- Hs.
  split; [exact E|]. split; [exact Hi|].
  apply Hf. right. rewrite Hs. discriminate.
Defined.

Lemma RemoveAddressAt_composes_witness :
  BNetworkInterface.RemoveAddressAt loop_handle 1 boot
    = RemoveAddressAt_composed loop_handle 1 boot /\
  (exists address w1 evs1,
      BNetworkInterface.GetAddressAt loop_handle 1
        BNetworkInterfaceAddress.new boot
        = Some ((ENODEV, address), w1, evs1) /\
      ENODEV <> B_OK /\
      BNetworkInterface.RemoveAddressAt loop_handle 1 boot
        = Some (ENODEV, w1, evs1) /\
      existsb (is_ioctl B_SOCKET_REMOVE_ALIAS) evs1 = false) /\
  (exists address w1 evs1,
      BNetworkInterface.GetAddressAt loop_handle 0
        BNetworkInterfaceAddress.new boot
        = Some ((B_OK, address), w1, evs1) /\
      BNetworkInterface.RemoveAddressAt loop_handle 0 boot
        = match BNetworkInterface.RemoveAddress loop_handle address w1 with
          | Some (status, w2, evs2) => Some (status, w2, evs1 ++ evs2)
          | None => None
          end).
Proof.
  destruct (RemoveAddressAt_composes (sys := system) loop_handle 1 boot)
    as (E & F & _).
  destruct (RemoveAddressAt_composes (sys := system) loop_handle 0 boot)
    as (_ & _ & G).
  split; [exact E|]. split.
  - do 3 eexists.
    assert (Hs : ENODEV <> B_OK) by discriminate.
    split; [vm_compute; reflexivity|]. split; [exact Hs|].
    eapply F; [vm_compute; reflexivity | exact Hs].
  - do 3 eexists. split; [vm_compute; reflexivity|].
    eapply G. vm_compute; reflexivity.
Defined.

Lemma RemoveAddress_keyed_by_address_bytes_witness :
  SockAddr (fAddress loopback_record) = SockAddr (fAddress other_record) /\
  BNetworkInterface.RemoveAddress loop_handle loopback_record boot
    = BNetworkInterface.RemoveAddress loop_handle other_record boot /\
  exists w' evs o,
    round_trip ReqIf AF_INET B_SOCKET_REMOVE_ALIAS
      {| ifr_name := strlcpy (ifr_name (stack_ifreq boot))
                       (Name loop_handle) IF_NAMESIZE;
         ifr_ifru := inet x7f x00 x00 x01
                     ++ skipn 16 (ifr_ifru (stack_ifreq boot)) |}
      evs o /\
    BNetworkInterface.RemoveAddress loop_handle loopback_record boot
      = Some (status_of o, w', evs).
Proof.
  assert (H : SockAddr (fAddress loopback_record)
              = SockAddr (fAddress other_record)) by reflexivity.
  destruct (RemoveAddress_keyed_by_address_bytes (sys := system)
              loop_handle loopback_record other_record boot H) as [E F].
  split; [exact H|]. split; [exact E|].
  apply F; cbn; lia.
Defined.

Lemma SetTo_name_truncates_witness :
  (0 < IF_NAMESIZE)%nat /\
  let handle := BNetworkInterface.SetTo raw long_name in
  let cut := firstn (IF_NAMESIZE - 1) (c_str long_name) in
  BNetworkInterface.new_name raw long_name = handle /\
  c_str (Name handle) = cut /\
  strlen (Name handle) = Nat.min (IF_NAMESIZE - 1) (strlen long_name) /\
  (strlen (Name handle) < IF_NAMESIZE)%nat /\
  forall op : Operation, emits (carries_name cut) (invoke op handle).
Proof.
  assert (H : (0 < IF_NAMESIZE)%nat) by (cbn; lia).
  split; [exact H|].
  exact (SetTo_name_truncates (sys := system) H raw long_name).
Defined.
End Simulation.

(** * The rest of the file *)

(** ** Address records sent to the kernel *)

Section AliasRequests.
Context {P : Platform} {NA : NetworkAddress} {sys : System}.


(** The request [do_ifaliasreq] builds from a record: [g] is what the
    uninitialised request held. *)
Lemma do_ifaliasreq_sends name option address readBack w :
  well_formed address ->
  let g := stack_ifaliasreq (snd (sys_socket AF_INET SOCK_DGRAM 0 w)) in
  let request :=
    {| ifra_name := strlcpy (ifra_name g) name IF_NAMESIZE;
       ifra_index := fIndex address;
       ifra_addr :=
         firstn (Length (fAddress address)) (SockAddr (fAddress address))
         ++ skipn (Length (fAddress address)) (ifra_addr g);
       ifra_mask :=
         firstn (Length (fMask address)) (SockAddr (fMask address))
         ++ skipn (Length (fMask address)) (ifra_mask g);
       ifra_broadaddr :=
         firstn (Length (fBroadcast address)) (SockAddr (fBroadcast address))
         ++ skipn (Length (fBroadcast address)) (ifra_broadaddr g);
       ifra_flags := fFlags address |} in
  exists w' evs o,
    round_trip ReqAlias AF_INET option request evs o /\
    do_ifaliasreq name option address readBack w
      = Some ((status_of o,
               match o with
               | IoctlDone reply =>
                   if readBack then
                     {| fIndex := fIndex address;
                        fFlags := ifra_flags reply;
                        fAddress := BNetworkAddress_SetTo
                                      (fAddress address) (ifra_addr reply);
                        fMask := BNetworkAddress_SetTo
                                   (fMask address) (ifra_mask reply);
                        fBroadcast := BNetworkAddress_SetTo
                                        (fBroadcast address)
                                        (ifra_broadaddr reply) |}
                   else address
               | _ => address
               end), w', evs) /\
    (sets_errno sys -> (status_of o = B_OK <-> succeeded o = true)).
Proof.
  intros ((A1 & A2) & (M1 & M2) & (B1 & B2)). cbv zeta.
  unfold do_ifaliasreq, bind, socket, ioctl_ifaliasreq, get_errno,
    FileDescriptorCloser_release, close, ret, uninitialized_ifaliasreq,
    Address, Mask, Broadcast, Index.
  destruct (sys_socket AF_INET SOCK_DGRAM 0 w) as [fd w1] eqn:Es.
  cbn [snd].
  destruct (fd <? 0) eqn:Efd.
  - apply Z.ltb_lt in Efd.
    do 2 eexists. exists (SocketFailed (errno w1)).
    split; [|split; [reflexivity|]]; [now constructor|].
    intros (Hs & _ & _). specialize (Hs AF_INET SOCK_DGRAM 0 w).
    rewrite Es in Hs. cbn in *. split; [intro E; now apply Hs in E|].
    discriminate.
  - apply Z.ltb_ge in Efd.
    rewrite !memcpy_fits by assumption. cbn [defined].
    match goal with |- context [sys_ioctl_ifaliasreq ?a ?b ?c ?d] =>
      destruct (sys_ioctl_ifaliasreq a b c d) as [[rc reply] w2] eqn:Ei
    end.
    destruct (rc <? 0) eqn:Erc.
    + apply Z.ltb_lt in Erc.
      do 2 eexists. exists (IoctlFailed reply (errno w2)).
      split; [|split; [reflexivity|]]; [now constructor|].
      intros (_ & _ & Hi).
      match type of Ei with sys_ioctl_ifaliasreq ?a ?b ?c ?d = _ =>
        specialize (Hi a b c d) end.
      rewrite Ei in Hi. cbn in *. split; [intro E; now apply Hi in E|].
      discriminate.
    + apply Z.ltb_ge in Erc.
      do 2 eexists. exists (IoctlDone reply).
      split; [|split; [reflexivity|]]; [now constructor|].
      intros _. split; reflexivity.
Qed.

(** X1.  [AddAddress] and [SetAddress] each make one round trip, with the
    add and the replace request: the request holds the handle's name, the
    record's index and flags, and for the address, the mask and the
    broadcast the first [Length()] bytes of each, the rest of each block
    being what the uninitialised request held.  The status is the error
    number of the call that failed, else [B_OK]. *)
Theorem AddAddress_SetAddress_send_the_record :
  forall (this : BNetworkInterface) (address : BNetworkInterfaceAddress)
         (w : World),
    well_formed address ->
    let g := stack_ifaliasreq (snd (sys_socket AF_INET SOCK_DGRAM 0 w)) in
    let request :=
      {| ifra_name := strlcpy (ifra_name g) (Name this) IF_NAMESIZE;
         ifra_index := fIndex address;
         ifra_addr :=
           firstn (Length (fAddress address)) (SockAddr (fAddress address))
           ++ skipn (Length (fAddress address)) (ifra_addr g);
         ifra_mask :=
           firstn (Length (fMask address)) (SockAddr (fMask address))
           ++ skipn (Length (fMask address)) (ifra_mask g);
         ifra_broadaddr :=
           firstn (Length (fBroadcast address))
             (SockAddr (fBroadcast address))
           ++ skipn (Length (fBroadcast address)) (ifra_broadaddr g);
         ifra_flags := fFlags address |} in
    (exists w' evs o,
        round_trip ReqAlias AF_INET B_SOCKET_ADD_ALIAS request evs o /\
        BNetworkInterface.AddAddress this address w
          = Some (status_of o, w', evs) /\
        (sets_errno sys -> (status_of o = B_OK <-> succeeded o = true))) /\
    (exists w' evs o,
        round_trip ReqAlias AF_INET B_SOCKET_SET_ALIAS request evs o /\
        BNetworkInterface.SetAddress this address w
          = Some (status_of o, w', evs) /\
        (sets_errno sys -> (status_of o = B_OK <-> succeeded o = true))).
Proof.
  intros this address w WF. cbv zeta.
  unfold BNetworkInterface.AddAddress, BNetworkInterface.SetAddress,
    do_ifaliasreq_const.
  split; unfold bind at 1;
    match goal with |- context [do_ifaliasreq ?n ?o ?a ?b w] =>
      destruct (do_ifaliasreq_sends n o a b w WF)
        as (w' & evs & o' & RT & -> & Hok)
    end;
    exists w', evs, o'; (split; [exact RT|]);
    (split; [cbn; now rewrite app_nil_r | exact Hok]).
Qed.

(** X2.  With [readBack] false, as in the overload for a [const] record
    that [AddAddress] and [SetAddress] call, [do_ifaliasreq] returns the
    record as it was given, whatever the kernel did to the request. *)
Theorem do_ifaliasreq_without_readBack_keeps_the_record :
  forall (name : list byte) (option : IoctlOption)
         (address address' : BNetworkInterfaceAddress) (w w' : World)
         (status : status_t) (evs : list Event),
    do_ifaliasreq name option address false w
      = Some ((status, address'), w', evs) ->
    address' = address.
Proof.
  intros name option address address' w w' status evs.
  unfold do_ifaliasreq, bind, socket, ioctl_ifaliasreq, get_errno,
    FileDescriptorCloser_release, close, ret, uninitialized_ifaliasreq,
    defined.
  destruct (sys_socket AF_INET SOCK_DGRAM 0 w) as [fd w1].
  destruct (fd <? 0); [now intros [= _ <- _ _]|].
  repeat match goal with
         | |- context [memcpy ?a ?b ?c ?d] =>
             destruct (memcpy a b c d); [|discriminate]
         end.
  match goal with |- context [sys_ioctl_ifaliasreq ?a ?b ?c ?d] =>
    destruct (sys_ioctl_ifaliasreq a b c d) as [[rc reply] w2]
  end.
  destruct (rc <? 0); now intros [= _ <- _ _].
Qed.

End AliasRequests.

(** ** Statistics, link state and the hardware address *)

Section OtherQueries.
Context {P : Platform} {NA : NetworkAddress} {sys : System}.

(** X4.  [GetStats(stats)] makes one round trip with the statistics query.
    When a call fails the status is its error number and the caller's
    record is untouched; when the ioctl succeeds the status is [B_OK] and
    the first [sizeof(ifreq_stats)] bytes of the record are those of the
    reply, the record keeping its size. *)
Theorem GetStats_copies_on_success_only :
  sets_errno sys ->
  forall (this : BNetworkInterface) (stats : list byte) (w : World),
    let request :=
      set_ifr_name (stack_ifreq w)
        (strlcpy (ifr_name (stack_ifreq w)) (Name this) IF_NAMESIZE) in
    exists w' evs o stats',
      round_trip ReqIf AF_INET SIOCGIFSTATS request evs o /\
      BNetworkInterface.GetStats this stats w
        = Some ((status_of o, stats'), w', evs) /\
      (status_of o = B_OK <-> succeeded o = true) /\
      (succeeded o = false -> stats' = stats) /\
      forall reply,
        o = IoctlDone reply ->
        (IFREQ_STATS_SIZE <= length (ifr_stats reply))%nat ->
        firstn IFREQ_STATS_SIZE stats'
          = firstn IFREQ_STATS_SIZE (ifr_stats reply) /\
        skipn IFREQ_STATS_SIZE stats' = skipn IFREQ_STATS_SIZE stats /\
        ((IFREQ_STATS_SIZE <= length stats)%nat ->
         length stats' = length stats).
Proof.
  intros H this stats w request. subst request.
  unfold BNetworkInterface.GetStats.
  unfold bind at 1, uninitialized_ifreq; unfold bind at 1.
  match goal with
  | |- context [do_request ?r0 ?n0 ?o0 ?w0] =>
      destruct (do_request_run r0 n0 o0 w0)
        as (status & w' & evs & o & -> & RT & -> & Hok)
  end.
  specialize (Hok H). cbn beta iota. rewrite Hok.
  exists w', evs, o.
  exists (match o with
          | IoctlDone reply =>
              firstn IFREQ_STATS_SIZE (ifr_stats reply)
              ++ skipn IFREQ_STATS_SIZE stats
          | _ => stats
          end).
  split; [exact RT|].
  split; [destruct o; cbn; now rewrite app_nil_r|].
  split; [rewrite <- Hok; apply iff_sym, Z.eqb_eq|].
  split; [destruct o; cbn; intro; try discriminate; reflexivity|].
  intros reply -> Hlen.
  assert (L : length (firstn IFREQ_STATS_SIZE (ifr_stats reply))
              = IFREQ_STATS_SIZE)
    by (rewrite length_firstn; lia).
  split; [|split].
  - rewrite firstn_app, L, Nat.sub_diag, firstn_O, app_nil_r.
    rewrite firstn_firstn. now rewrite Nat.min_id.
  - rewrite skipn_app, L, Nat.sub_diag, skipn_O.
    rewrite skipn_all2 by lia. reflexivity.
  - intro Hs. rewrite length_app, L, length_skipn. lia.
Qed.

(** X5.  [HasLink()] makes the one round trip of [Flags()] and tells
    whether the link bit is set in the flags the kernel returned; it is
    false when the socket cannot be opened or the ioctl fails, so that a
    failed query reads as a link that is down. *)
Theorem HasLink_false_on_failure :
  sets_errno sys ->
  forall (this : BNetworkInterface) (w : World),
    let request :=
      set_ifr_name (stack_ifreq w)
        (strlcpy (ifr_name (stack_ifreq w)) (Name this) IF_NAMESIZE) in
    exists w' evs o,
      round_trip ReqIf AF_INET SIOCGIFFLAGS request evs o /\
      BNetworkInterface.HasLink this w
        = Some (match o with
                | IoctlDone reply =>
                    negb (Z.land (to_uint32 (ifr_flags reply)) IFF_LINK =? 0)
                | _ => false
                end, w', evs).
Proof.
  intros H this w request. subst request.
  unfold BNetworkInterface.HasLink, BNetworkInterface.Flags.
  unfold bind at 1. unfold bind at 1, uninitialized_ifreq.
  unfold bind at 1.
  match goal with
  | |- context [do_request ?r0 ?n0 ?o0 ?w0] =>
      destruct (do_request_run r0 n0 o0 w0)
        as (status & w' & evs & o & -> & RT & -> & Hok)
  end.
  specialize (Hok H). cbn beta iota. rewrite Hok.
  exists w', evs, o. split; [exact RT|].
  destruct o; cbn; now rewrite !app_nil_r.
Qed.

(** X6.  [GetHardwareAddress(address)] makes one round trip on a socket of
    the link family, with the address query on the handle's name.  The
    status is the error number of the call that failed, else [B_OK]; the
    caller's address is set from the reply when the ioctl succeeded and
    is untouched otherwise. *)
Theorem GetHardwareAddress_uses_a_link_socket :
  forall (this : BNetworkInterface) (address : BNetworkAddress) (w : World),
    let g := stack_ifreq (snd (sys_socket AF_LINK SOCK_DGRAM 0 w)) in
    let request :=
      set_ifr_name g (strlcpy (ifr_name g) (Name this) IF_NAMESIZE) in
    exists w' evs o,
      round_trip ReqIf AF_LINK SIOCGIFADDR request evs o /\
      BNetworkInterface.GetHardwareAddress this address w
        = Some ((status_of o,
                 match o with
                 | IoctlDone reply =>
                     BNetworkAddress_SetTo address (ifr_addr reply)
                 | _ => address
                 end), w', evs) /\
      (sets_errno sys -> (status_of o = B_OK <-> succeeded o = true)).
Proof.
  intros this address w. cbv zeta.
  unfold BNetworkInterface.GetHardwareAddress, bind, socket, ioctl_ifreq,
    get_errno, FileDescriptorCloser_release, close, ret,
    uninitialized_ifreq.
  destruct (sys_socket AF_LINK SOCK_DGRAM 0 w) as [fd w1] eqn:Es.
  cbn [snd].
  destruct (fd <? 0) eqn:Efd.
  - apply Z.ltb_lt in Efd.
    do 2 eexists. exists (SocketFailed (errno w1)).
    split; [|split; [reflexivity|]]; [now constructor|].
    intros (Hs & _ & _). specialize (Hs AF_LINK SOCK_DGRAM 0 w).
    rewrite Es in Hs. cbn in *. split; [intro E; now apply Hs in E|].
    discriminate.
  - apply Z.ltb_ge in Efd.
    match goal with |- context [sys_ioctl_ifreq ?a ?b ?c ?d] =>
      destruct (sys_ioctl_ifreq a b c d) as [[rc reply] w2] eqn:Ei
    end.
    destruct (rc <? 0) eqn:Erc.
    + apply Z.ltb_lt in Erc.
      do 2 eexists. exists (IoctlFailed reply (errno w2)).
      split; [|split; [reflexivity|]]; [now constructor|].
      intros (_ & Hi & _).
      match type of Ei with sys_ioctl_ifreq ?a ?b ?c ?d = _ =>
        specialize (Hi a b c d) end.
      rewrite Ei in Hi. cbn in *. split; [intro E; now apply Hi in E|].
      discriminate.
    + apply Z.ltb_ge in Erc.
      do 2 eexists. exists (IoctlDone reply).
      split; [|split; [reflexivity|]]; [now constructor|].
      intros _. split; reflexivity.
Qed.

(** X7.  The constructor from an index makes the round trip of
    [SetTo(uint32)], with an empty name in the request, and has no way to
    report its status: when the lookup fails the new object is left with
    whatever its storage held, and only a lookup that succeeded gives it a
    name. *)
Theorem new_index_leaves_storage_on_failure :
  sets_errno sys ->
  forall (storage : BNetworkInterface) (index : Z) (w : World),
    let request :=
      set_ifr_name (set_ifr_int (stack_ifreq w) index)
        (strlcpy (ifr_name (stack_ifreq w)) [NUL] IF_NAMESIZE) in
    ((0 < IF_NAMESIZE)%nat -> c_str (ifr_name request) = []) /\
    exists w' evs o,
      round_trip ReqIf AF_INET SIOCGIFNAME request evs o /\
      BNetworkInterface.new_index storage index w
        = Some (match o with
                | IoctlDone reply =>
                    {| fName := strlcpy (fName storage) (ifr_name reply)
                                  IF_NAMESIZE |}
                | _ => storage
                end, w', evs).
Proof.
  intros H storage index w request. subst request.
  split; [intro Hs; cbn [ifr_name set_ifr_name];
          rewrite c_str_strlcpy by exact Hs; apply firstn_nil|].
  unfold BNetworkInterface.new_index, BNetworkInterface.SetTo_index.
  unfold bind at 1. unfold bind at 1, uninitialized_ifreq.
  unfold bind at 1.
  match goal with
  | |- context [do_request ?r0 ?n0 ?o0 ?w0] =>
      destruct (do_request_run r0 n0 o0 w0)
        as (status & w' & evs & o & -> & RT & -> & Hok)
  end.
  specialize (Hok H). cbn beta iota. rewrite Hok.
  exists w', evs, o. split; [exact RT|].
  destruct o; cbn; now rewrite !app_nil_r.
Qed.
End OtherQueries.

(** ** Handles and their names *)

Section HandleNames.
Context {P : Platform} {NA : NetworkAddress} {sys : System}.

Lemma valid_strlcpy dst src :
  (0 < IF_NAMESIZE)%nat -> length dst = IF_NAMESIZE ->
  valid {| fName := strlcpy dst src IF_NAMESIZE |}.
Proof.
  intros Hs Hl. split; unfold terminated; cbn [fName].
  - rewrite length_strlcpy; [exact Hl | lia].
  - rewrite strlen_strlcpy by exact Hs. lia.
Qed.

(** X8.  On an object whose name buffer has its [IF_NAMESIZE] bytes,
    [Unset], [SetTo(name)] and both constructors they implement leave a
    handle whose buffer has the same size and holds a terminated name,
    empty after [Unset]; [SetTo(uint32)] does so when it returns [B_OK],
    and otherwise returns the handle as valid as it was. *)
Theorem setters_keep_the_name_terminated :
  (0 < IF_NAMESIZE)%nat ->
  forall (this : BNetworkInterface) (name : list byte),
    length (fName this) = IF_NAMESIZE ->
    valid (BNetworkInterface.Unset this) /\
    c_str (Name (BNetworkInterface.Unset this)) = [] /\
    valid (BNetworkInterface.new this) /\
    valid (BNetworkInterface.SetTo this name) /\
    valid (BNetworkInterface.new_name this name) /\
    forall index w status this' w' evs,
      BNetworkInterface.SetTo_index this index w
        = Some ((status, this'), w', evs) ->
      status = B_OK \/ valid this ->
      valid this'.
Proof.
  intros Hs this name Hl.
  assert (U : valid (BNetworkInterface.Unset this)).
  { split; unfold terminated, BNetworkInterface.Unset; cbn [fName].
    - destruct (fName this); cbn in *; lia.
    - unfold strlen. rewrite c_str_NUL. cbn. exact Hs. }
  assert (S1 : valid (BNetworkInterface.SetTo this name))
    by (apply valid_strlcpy; assumption).
  split; [exact U|]. split; [reflexivity|]. split; [exact U|].
  split; [exact S1|]. split; [exact S1|].
  intros index w status this' w' evs.
  unfold BNetworkInterface.SetTo_index.
  unfold bind at 1, uninitialized_ifreq; unfold bind at 1.
  match goal with
  | |- context [do_request ?r0 ?n0 ?o0 ?w0] =>
      destruct (do_request_run r0 n0 o0 w0)
        as (st & w1 & evs1 & o & -> & _ & -> & _)
  end.
  cbn beta iota. destruct (status_of o =? B_OK) eqn:E; cbn.
  - intros [= <- <- _ _] _. apply valid_strlcpy; assumption.
  - intros [= <- <- _ _] [E'|V]; [|exact V].
    apply Z.eqb_neq in E. contradiction.
Qed.

(** X9.  Every operation on a handle whose name is terminated passes the
    kernel exactly that name: nothing is cut. *)
Theorem operations_send_the_name :
  forall (this : BNetworkInterface) (op : Operation),
    terminated this ->
    emits (carries_name (c_str (Name this))) (invoke op this).
Proof.
  intros this op T. unfold terminated, strlen in T.
  apply invoke_carries; [lia|].
  apply firstn_all2. unfold Name. lia.
Qed.

Lemma strlcpy_loop_c_str dst src room :
  strlcpy_loop dst (c_str src) room = strlcpy_loop dst src room.
Proof.
  revert dst src. induction room as [|room IH]; intros dst src;
    [reflexivity|].
  destruct src as [|c src]; [reflexivity|].
  cbn [c_str strlcpy_loop]. destruct (Byte.eqb c NUL) eqn:E;
    [reflexivity|].
  cbn [strlcpy_loop]. now rewrite E, IH.
Qed.

(** [strlcpy] reads its source up to the terminator only. *)
Lemma strlcpy_same dst src1 src2 size :
  c_str src1 = c_str src2 ->
  strlcpy dst src1 size = strlcpy dst src2 size.
Proof.
  intro H. destruct size as [|room]; [reflexivity|]. cbn [strlcpy].
  now rewrite <- (strlcpy_loop_c_str dst src1), H, strlcpy_loop_c_str.
Qed.

Lemma same_run_refl {A} (m : M A) : same_run m m.
Proof. intro w. reflexivity. Qed.

Lemma same_run_bind {A B} (m1 m2 : M A) (k1 k2 : A -> M B) :
  same_run m1 m2 -> (forall a, same_run (k1 a) (k2 a)) ->
  same_run (bind m1 k1) (bind m2 k2).
Proof.
  intros Hm Hk w. unfold bind. rewrite Hm.
  destruct (m2 w) as [[[a w1] e1]|]; [|reflexivity]. now rewrite Hk.
Qed.

Lemma do_request_same request name1 name2 option :
  c_str name1 = c_str name2 ->
  same_run (do_request request name1 option)
    (do_request request name2 option).
Proof.
  intros H w. unfold do_request.
  now rewrite (strlcpy_same _ name1 name2 _ H).
Qed.

Lemma do_ifaliasreq_same name1 name2 option address readBack :
  c_str name1 = c_str name2 ->
  same_run (do_ifaliasreq name1 option address readBack)
    (do_ifaliasreq name2 option address readBack).
Proof.
  intro H. unfold do_ifaliasreq.
  apply same_run_bind; [apply same_run_refl|]. intro fd.
  destruct (fd <? 0); [apply same_run_refl|].
  apply same_run_bind; [apply same_run_refl|]. intro g.
  rewrite (strlcpy_same _ name1 name2 _ H). apply same_run_refl.
Qed.

Lemma GetHardwareAddress_same this1 this2 address :
  c_str (Name this1) = c_str (Name this2) ->
  same_run (BNetworkInterface.GetHardwareAddress this1 address)
    (BNetworkInterface.GetHardwareAddress this2 address).
Proof.
  intro H. unfold BNetworkInterface.GetHardwareAddress.
  apply same_run_bind; [apply same_run_refl|]. intro fd.
  destruct (fd <? 0); [apply same_run_refl|].
  apply same_run_bind; [apply same_run_refl|]. intro g.
  rewrite (strlcpy_same _ (Name this1) (Name this2) _ H).
  apply same_run_refl.
Qed.

Ltac same_step H :=
  first
    [ apply do_request_same; exact H
    | apply do_ifaliasreq_same; exact H
    | apply GetHardwareAddress_same; exact H
    | apply same_run_refl
    | apply same_run_bind; [|intro]
    | match goal with
      | |- same_run (match ?x with _ => _ end) _ => destruct x
      end ].

Lemma invoke_same_name this1 this2 op :
  c_str (Name this1) = c_str (Name this2) ->
  same_run (invoke op this1) (invoke op this2).
Proof.
  intro H.
  destruct op; unfold invoke, discard;
    unfold BNetworkInterface.Exists, BNetworkInterface.HasLink,
      BNetworkInterface.Flags, BNetworkInterface.MTU,
      BNetworkInterface.Type_, BNetworkInterface.CountAddresses,
      BNetworkInterface.GetStats, BNetworkInterface.SetFlags,
      BNetworkInterface.SetMTU, BNetworkInterface.RemoveAddressAt,
      BNetworkInterface.GetAddressAt, BNetworkInterface.AddAddress,
      BNetworkInterface.SetAddress, BNetworkInterface.RemoveAddress,
      BNetworkInterfaceAddress.SetTo, do_ifaliasreq_const;
    repeat same_step H.
Qed.

(** X10.  An operation depends on the handle through its name alone: two
    handles that hold the same name, whatever bytes follow the terminator
    in their buffers, give the same run of every operation, the request
    sent to the kernel included. *)
Theorem operations_depend_on_the_name_only :
  forall (this1 this2 : BNetworkInterface),
    c_str (Name this1) = c_str (Name this2) ->
    forall op : Operation, same_run (invoke op this1) (invoke op this2).
Proof.
  intros this1 this2 H op. now apply invoke_same_name.
Qed.

(** X16.  [Name()] and [SetTo(name)] round trip: setting any handle to the
    name of a handle whose name is terminated gives a handle with that
    name, on which every operation runs as on the first. *)
Theorem SetTo_of_Name_copies_the_handle :
  forall (this other : BNetworkInterface),
    terminated this ->
    let copy := BNetworkInterface.SetTo other (Name this) in
    c_str (Name copy) = c_str (Name this) /\
    forall op : Operation, same_run (invoke op copy) (invoke op this).
Proof.
  intros this other T copy.
  assert (E : c_str (Name copy) = c_str (Name this)).
  { unfold terminated, strlen in T. subst copy.
    unfold Name, BNetworkInterface.SetTo. cbn [fName].
    rewrite c_str_strlcpy by lia. apply firstn_all2. lia. }
  split; [exact E|]. intro op. now apply invoke_same_name.
Qed.
End HandleNames.

(** ** Sockets are opened, used once and closed *)

Section Descriptors.
Context {P : Platform} {NA : NetworkAddress} {sys : System}.

Lemma round_trips_app_bounded k :
  forall e1 e2 n1 n2,
    (length e1 <= k)%nat ->
    round_trips e1 = Some n1 -> round_trips e2 = Some n2 ->
    round_trips (e1 ++ e2) = Some (n1 + n2)%nat.
Proof.
  induction k as [|k IH]; intros e1 e2 n1 n2 Hk H1 H2.
  - destruct e1; [|cbn in Hk; lia]. cbn in H1. injection H1 as <-.
    exact H2.
  - destruct e1 as [|[f t p fd err| |] rest];
      [cbn in H1; injection H1 as <-; exact H2 | | discriminate
      | discriminate].
    cbn [round_trips app] in *. destruct (fd <? 0).
    + destruct (round_trips rest) as [n|] eqn:R; [|discriminate].
      cbn in H1. injection H1 as <-.
      rewrite (IH rest e2 n n2); [reflexivity | cbn in Hk; lia | exact R
                                 | exact H2].
    + destruct rest as [|[| fd1 o rq rp rc e |] [|[| |fd2] rest']];
        try discriminate.
      cbn [app]. destruct ((fd1 =? fd) && (fd2 =? fd)); [|discriminate].
      destruct (round_trips rest') as [n|] eqn:R; [|discriminate].
      cbn in H1. injection H1 as <-.
      rewrite (IH rest' e2 n n2); [reflexivity | cbn in Hk; lia | exact R
                                  | exact H2].
Qed.

Lemma round_trips_app e1 e2 n1 n2 :
  round_trips e1 = Some n1 -> round_trips e2 = Some n2 ->
  round_trips (e1 ++ e2) = Some (n1 + n2)%nat.
Proof. apply (round_trips_app_bounded (length e1)). lia. Qed.

Lemma round_trip_is_one {R} (inj : R -> Request) family option request
    evs o :
  round_trip inj family option request evs o ->
  round_trips evs = Some 1%nat.
Proof.
  intros [fd err Hfd | fd err0 reply rc err Hfd Hrc
         | fd err0 reply rc err Hfd Hrc]; cbn [round_trips].
  - apply Z.ltb_lt in Hfd. now rewrite Hfd.
  - apply Z.ltb_ge in Hfd. now rewrite Hfd, Z.eqb_refl.
  - apply Z.ltb_ge in Hfd. now rewrite Hfd, Z.eqb_refl.
Qed.

Lemma makes_none_ret {A} (a : A) : makes_round_trips 0 (ret a).
Proof. intros w a' w' evs [= _ _ <-]. reflexivity. Qed.

Lemma makes_none_defined {A} (o : option A) :
  makes_round_trips 0 (defined o).
Proof.
  intros w a w' evs. unfold defined. destruct o; [|discriminate].
  intros [= _ _ <-]. reflexivity.
Qed.

Lemma makes_none_uninitialized_ifreq :
  makes_round_trips 0 uninitialized_ifreq.
Proof. intros w a w' evs [= _ _ <-]. reflexivity. Qed.

Lemma makes_bind {A B} n1 n2 (m : M A) (k : A -> M B) :
  makes_round_trips n1 m -> (forall a, makes_round_trips n2 (k a)) ->
  makes_round_trips (n1 + n2) (bind m k).
Proof.
  intros Hm Hk w b w' evs. unfold bind.
  destruct (m w) as [[[a w1] e1]|] eqn:Em; [|discriminate].
  destruct (k a w1) as [[[b' w2] e2]|] eqn:Ek; [|discriminate].
  intros [= _ _ <-]. apply round_trips_app; [eapply Hm | eapply Hk];
    eassumption.
Qed.

Lemma makes_one_do_request request name option :
  makes_round_trips 1 (do_request request name option).
Proof.
  intros w a w' evs E.
  destruct (do_request_run request name option w)
    as (status & w1 & evs1 & o & E1 & RT & _).
  rewrite E1 in E. injection E as _ _ <-.
  exact (round_trip_is_one _ _ _ _ _ _ RT).
Qed.

Lemma makes_one_do_ifaliasreq name option address readBack :
  makes_round_trips 1 (do_ifaliasreq name option address readBack).
Proof.
  intros w a w' evs.
  unfold do_ifaliasreq, bind, socket, ioctl_ifaliasreq, get_errno,
    FileDescriptorCloser_release, close, ret, uninitialized_ifaliasreq,
    defined.
  destruct (sys_socket AF_INET SOCK_DGRAM 0 w) as [fd w1].
  destruct (fd <? 0) eqn:Efd.
  - intros [= _ _ <-]. cbn. now rewrite Efd.
  - repeat match goal with
           | |- context [memcpy ?a ?b ?c ?d] =>
               destruct (memcpy a b c d); [|discriminate]
           end.
    match goal with |- context [sys_ioctl_ifaliasreq ?a ?b ?c ?d] =>
      destruct (sys_ioctl_ifaliasreq a b c d) as [[rc reply] w2]
    end.
    destruct (rc <? 0); intros [= _ _ <-]; cbn;
      now rewrite Efd, Z.eqb_refl.
Qed.

Lemma makes_one_GetHardwareAddress this address :
  makes_round_trips 1 (BNetworkInterface.GetHardwareAddress this address).
Proof.
  intros w a w' evs.
  unfold BNetworkInterface.GetHardwareAddress, bind, socket, ioctl_ifreq,
    get_errno, FileDescriptorCloser_release, close, ret,
    uninitialized_ifreq.
  destruct (sys_socket AF_LINK SOCK_DGRAM 0 w) as [fd w1].
  destruct (fd <? 0) eqn:Efd.
  - intros [= _ _ <-]. cbn. now rewrite Efd.
  - match goal with |- context [sys_ioctl_ifreq ?a ?b ?c ?d] =>
      destruct (sys_ioctl_ifreq a b c d) as [[rc reply] w2]
    end.
    destruct (rc <? 0); intros [= _ _ <-]; cbn;
      now rewrite Efd, Z.eqb_refl.
Qed.

Ltac makes_step :=
  match goal with
  | |- makes_round_trips 0 (ret _) => apply makes_none_ret
  | |- makes_round_trips 1 (do_request _ _ _) => apply makes_one_do_request
  | |- makes_round_trips 1 (do_ifaliasreq _ _ _ _) =>
      apply makes_one_do_ifaliasreq
  | |- makes_round_trips 1 (BNetworkInterface.GetHardwareAddress _ _) =>
      apply makes_one_GetHardwareAddress
  | |- makes_round_trips 1 (bind uninitialized_ifreq _) =>
      apply (makes_bind 0 1);
      [apply makes_none_uninitialized_ifreq | intro]
  | |- makes_round_trips 1 (bind (defined _) _) =>
      apply (makes_bind 0 1); [apply makes_none_defined | intro]
  | |- makes_round_trips 1 (bind _ _) => apply (makes_bind 1 0); [|intro]
  | |- makes_round_trips _ (match ?x with _ => _ end) => destruct x
  end.

Lemma makes_one_RemoveAddress this address :
  makes_round_trips 1 (BNetworkInterface.RemoveAddress this address).
Proof. unfold BNetworkInterface.RemoveAddress. repeat makes_step. Qed.

Lemma makes_one_GetAddressAt this index address :
  makes_round_trips 1 (BNetworkInterface.GetAddressAt this index address).
Proof.
  unfold BNetworkInterface.GetAddressAt, BNetworkInterfaceAddress.SetTo.
  apply makes_one_do_ifaliasreq.
Qed.

Lemma makes_one_invoke op this :
  (forall index, op <> OpRemoveAddressAt index) ->
  makes_round_trips 1 (invoke op this).
Proof.
  intro H.
  destruct op; try (exfalso; eapply H; reflexivity);
    unfold invoke, discard, BNetworkInterface.Exists,
      BNetworkInterface.HasLink, BNetworkInterface.Flags,
      BNetworkInterface.MTU, BNetworkInterface.Type_,
      BNetworkInterface.CountAddresses, BNetworkInterface.GetStats,
      BNetworkInterface.SetFlags, BNetworkInterface.SetMTU,
      BNetworkInterface.GetAddressAt, BNetworkInterface.AddAddress,
      BNetworkInterface.SetAddress, BNetworkInterface.RemoveAddress,
      BNetworkInterfaceAddress.SetTo, do_ifaliasreq_const;
    repeat makes_step.
Qed.

(** X11.  Whatever the kernel answers, the calls of an operation are whole
    round trips: a socket that fails to open, or a socket, one ioctl on
    it and its close; no descriptor is left open or used twice.  Every
    operation makes exactly one, but [RemoveAddressAt], which makes one or
    two; [SetTo(uint32)] makes one. *)
Theorem operations_are_whole_round_trips :
  (forall (op : Operation) (this : BNetworkInterface) w r w' evs,
      invoke op this w = Some (r, w', evs) ->
      round_trips evs = Some 1%nat \/
      (exists index, op = OpRemoveAddressAt index) /\
      round_trips evs = Some 2%nat) /\
  (forall (this : BNetworkInterface) (index : Z) w r w' evs,
      BNetworkInterface.SetTo_index this index w = Some (r, w', evs) ->
      round_trips evs = Some 1%nat).
Proof.
  split.
  - intros op this w r w' evs.
    destruct op;
      try (intro E; left;
           refine (makes_one_invoke _ _ _ _ _ _ _ E);
           intros ? ?; discriminate).
    unfold invoke, discard, BNetworkInterface.RemoveAddressAt.
    unfold bind at 1. unfold bind at 1.
    destruct (BNetworkInterface.GetAddressAt this index
                BNetworkInterfaceAddress.new w)
      as [[[[status address] w1] evs1]|] eqn:G; [|discriminate].
    apply makes_one_GetAddressAt in G.
    destruct (negb (status =? B_OK)).
    + intros [= _ _ <-]. left. cbn. now rewrite !app_nil_r.
    + destruct (BNetworkInterface.RemoveAddress this address w1)
        as [[[status2 w2] evs2]|] eqn:R; [|discriminate].
      apply makes_one_RemoveAddress in R.
      intros [= _ _ <-]. right. split; [now exists index|].
      cbn. rewrite app_nil_r.
      exact (round_trips_app _ _ _ _ G R).
  - intros this index.
    change (makes_round_trips 1 (BNetworkInterface.SetTo_index this index)).
    unfold BNetworkInterface.SetTo_index. repeat makes_step.
Qed.
End Descriptors.

(** ** Values and records on their way to the kernel *)

Section Marshalling.
Context {P : Platform} {NA : NetworkAddress} {sys : System}.

Lemma to_uint32_to_int32 v : to_uint32 (to_int32 v) = to_uint32 v.
Proof.
  unfold to_uint32, to_int32.
  rewrite (Z.mod_eq (v + 2 ^ 31) (2 ^ 32)) by lia.
  replace (v + 2 ^ 31 - 2 ^ 32 * ((v + 2 ^ 31) / 2 ^ 32) - 2 ^ 31)
    with (v + (- ((v + 2 ^ 31) / 2 ^ 32)) * 2 ^ 32) by lia.
  apply Z.mod_add. lia.
Qed.

(** X12.  Storing a [uint32] in an [int] member of the request, as
    [SetFlags], [SetMTU] and [SetTo(uint32)] do, and reading the member
    back as a [uint32], as [Flags], [MTU] and [Type] do, gives the value
    again; the store changes the first four bytes of the union and
    nothing else of the request. *)
Theorem int_member_round_trip :
  forall (request : ifreq) (value : Z),
    0 <= value < 2 ^ 32 ->
    to_uint32 (ifr_flags (set_ifr_int request value)) = value /\
    to_uint32 (ifr_mtu (set_ifr_int request value)) = value /\
    to_uint32 (ifr_type (set_ifr_int request value)) = value /\
    ifr_name (set_ifr_int request value) = ifr_name request /\
    skipn sizeof_int (ifr_ifru (set_ifr_int request value))
      = skipn sizeof_int (ifr_ifru request).
Proof.
  intros request value Hv.
  assert (L : to_uint32 (load_int (store_int (to_int32 value)
                                     (ifr_ifru request))) = value).
  { rewrite load_store_int, to_int32_idem, to_uint32_to_int32.
    unfold to_uint32. apply Z.mod_small. exact Hv. }
  split; [exact L|]. split; [exact L|]. split; [exact L|].
  split; reflexivity.
Qed.

(** X13.  A record a caller default-constructs and fills with the four
    setters has index 0 and the values set; given to [AddAddress], the
    request holds index 0, the flags set, and the first [Length()] bytes
    of each address set. *)
Theorem filled_record_is_what_AddAddress_sends :
  forall (this : BNetworkInterface)
         (address mask broadcast : BNetworkAddress) (flags : Z) (w : World),
    fits address -> fits mask -> fits broadcast ->
    let g := stack_ifaliasreq (snd (sys_socket AF_INET SOCK_DGRAM 0 w)) in
    let request :=
      {| ifra_name := strlcpy (ifra_name g) (Name this) IF_NAMESIZE;
         ifra_index := 0;
         ifra_addr :=
           firstn (Length address) (SockAddr address)
           ++ skipn (Length address) (ifra_addr g);
         ifra_mask :=
           firstn (Length mask) (SockAddr mask)
           ++ skipn (Length mask) (ifra_mask g);
         ifra_broadaddr :=
           firstn (Length broadcast) (SockAddr broadcast)
           ++ skipn (Length broadcast) (ifra_broadaddr g);
         ifra_flags := flags |} in
    filled address mask broadcast flags
      = {| fIndex := 0; fFlags := flags; fAddress := address;
           fMask := mask; fBroadcast := broadcast |} /\
    exists w' evs o,
      round_trip ReqAlias AF_INET B_SOCKET_ADD_ALIAS request evs o /\
      BNetworkInterface.AddAddress this
        (filled address mask broadcast flags) w
        = Some (status_of o, w', evs).
Proof.
  intros this address mask broadcast flags w Ha Hm Hb. cbv zeta.
  split; [reflexivity|].
  assert (WF : well_formed (filled address mask broadcast flags))
    by (repeat split; cbn; first [apply Ha | apply Hm | apply Hb]).
  unfold BNetworkInterface.AddAddress, do_ifaliasreq_const.
  unfold bind at 1.
  match goal with |- context [do_ifaliasreq ?n ?o ?a ?b w] =>
    destruct (do_ifaliasreq_sends n o a b w WF)
      as (w' & evs & o' & RT & -> & _)
  end.
  exists w', evs, o'. split; [exact RT|].
  cbn. now rewrite app_nil_r.
Qed.

(** X14.  [RemoveAddressAt(index)] asks for the alias at the index and,
    when that ioctl succeeds, asks for the removal of the address the
    kernel returned: the removal request holds the first [Length()] bytes
    of the address set from the reply.  When the query fails, its error
    number is the result and nothing else is asked. *)
Theorem RemoveAddressAt_removes_the_alias_it_reads :
  sets_errno sys ->
  well_formed BNetworkInterfaceAddress.new ->
  forall (this : BNetworkInterface) (index : Z) (w : World),
    exists query w1 evs1 o1,
      round_trip ReqAlias AF_INET B_SOCKET_GET_ALIAS query evs1 o1 /\
      ifra_index query = index /\
      match o1 with
      | IoctlDone reply =>
          let address :=
            BNetworkAddress_SetTo BNetworkAddress_new (ifra_addr reply) in
          let n := Length address in
          (n <= IFR_IFRU_SIZE)%nat -> (n <= length (SockAddr address))%nat ->
          exists w2 evs2 o2,
            round_trip ReqIf AF_INET B_SOCKET_REMOVE_ALIAS
              {| ifr_name := strlcpy (ifr_name (stack_ifreq w1))
                               (Name this) IF_NAMESIZE;
                 ifr_ifru := firstn n (SockAddr address)
                             ++ skipn n (ifr_ifru (stack_ifreq w1)) |}
              evs2 o2 /\
            BNetworkInterface.RemoveAddressAt this index w
              = Some (status_of o2, w2, evs1 ++ evs2)
      | _ =>
          BNetworkInterface.RemoveAddressAt this index w
            = Some (status_of o1, w1, evs1)
      end.
Proof.
  intros H WF this index w.
  destruct (do_ifaliasreq_sends (Name this) B_SOCKET_GET_ALIAS
              {| fIndex := index;
                 fFlags := fFlags BNetworkInterfaceAddress.new;
                 fAddress := fAddress BNetworkInterfaceAddress.new;
                 fMask := fMask BNetworkInterfaceAddress.new;
                 fBroadcast := fBroadcast BNetworkInterfaceAddress.new |}
              true w WF)
    as (w1 & evs1 & o1 & RT & E1 & Hok).
  specialize (Hok H).
  eexists. exists w1, evs1, o1. split; [exact RT|]. split; [reflexivity|].
  assert (E : (status_of o1 =? B_OK) = succeeded o1).
  { destruct (succeeded o1) eqn:S1.
    - apply Z.eqb_eq. now apply Hok.
    - apply Z.eqb_neq. intro E. apply Hok in E. congruence. }
  assert (R : BNetworkInterface.RemoveAddressAt this index w
              = match o1 with
                | IoctlDone reply =>
                    match BNetworkInterface.RemoveAddress this
                            {| fIndex := index;
                               fFlags := ifra_flags reply;
                               fAddress :=
                                 BNetworkAddress_SetTo BNetworkAddress_new
                                   (ifra_addr reply);
                               fMask :=
                                 BNetworkAddress_SetTo BNetworkAddress_new
                                   (ifra_mask reply);
                               fBroadcast :=
                                 BNetworkAddress_SetTo BNetworkAddress_new
                                   (ifra_broadaddr reply) |} w1 with
                    | Some (status2, w2, evs2) =>
                        Some (status2, w2, evs1 ++ evs2)
                    | None => None
                    end
                | _ => Some (status_of o1, w1, evs1)
                end).
  { unfold BNetworkInterface.RemoveAddressAt,
      BNetworkInterface.GetAddressAt, BNetworkInterfaceAddress.SetTo.
    unfold bind at 1. rewrite E1. cbn beta iota. rewrite E.
    destruct o1; cbn [succeeded negb]; try reflexivity;
      cbn; now rewrite app_nil_r. }
  rewrite R. destruct o1 as [err|reply err|reply]; try reflexivity.
  cbv zeta. intros H1 H2.
  unfold BNetworkInterface.RemoveAddress, Address, ifr_addr.
  unfold bind at 1, uninitialized_ifreq. unfold bind at 1.
  cbn [fAddress]. rewrite memcpy_fits by assumption. cbn [defined].
  unfold bind at 1.
  match goal with |- context [do_request ?r0 ?n0 ?o0 ?w0] =>
    destruct (do_request_run r0 n0 o0 w0)
      as (status & w2 & evs2 & o2 & -> & RT2 & -> & _)
  end.
  exists w2, evs2, o2. split; [exact RT2|].
  cbn. now rewrite !app_nil_r.
Qed.
End Marshalling.

(** ** Queries do not ask for changes *)

Section ReadOnly.
Context {P : Platform} {NA : NetworkAddress} {sys : System}.

Lemma asks_no_change_about_ioctls : about_ioctls asks_no_change.
Proof. split; intros; exact I. Qed.

Ltac query_step :=
  first
    [ apply emits_ret
    | apply emits_get_errno
    | apply emits_uninitialized_ifreq
    | apply emits_defined
    | apply emits_socket; exact asks_no_change_about_ioctls
    | apply emits_close; exact asks_no_change_about_ioctls
    | apply emits_do_request;
      [exact asks_no_change_about_ioctls | intros; reflexivity]
    | apply emits_do_ifaliasreq;
      [exact asks_no_change_about_ioctls | intros; reflexivity]
    | apply emits_ioctl_ifreq; intros; reflexivity
    | apply emits_if
    | apply emits_bind; [|intros]
    | match goal with
      | |- emits _ (match ?x with _ => _ end) => destruct x
      end ].

(** X15.  The operations that read (the [const] methods, [GetStats],
    [GetAddressAt] and [GetHardwareAddress]) never send the kernel a
    command that sets flags or MTU or adds, replaces or removes an alias,
    whatever the handle and the kernel's answers. *)
Theorem queries_ask_no_change :
  forall (op : Operation) (this : BNetworkInterface),
    is_query op = true ->
    emits asks_no_change (invoke op this).
Proof.
  intros op this Hq.
  destruct op; try discriminate; unfold invoke, discard;
    unfold BNetworkInterface.Exists, BNetworkInterface.HasLink,
      BNetworkInterface.Flags, BNetworkInterface.MTU,
      BNetworkInterface.Type_, BNetworkInterface.CountAddresses,
      BNetworkInterface.GetStats, BNetworkInterface.GetAddressAt,
      BNetworkInterface.GetHardwareAddress, BNetworkInterfaceAddress.SetTo;
    repeat query_step.
Qed.
End ReadOnly.

(** ** More runs on the simulated kernel *)

Section MoreRuns.
Import Sim.
Import Cases.

Lemma accepting_sets_errno : sets_errno accepting.
Proof. repeat split; cbn; intros; lia. Qed.

Lemma new_record_well_formed :
  well_formed (NA := address) BNetworkInterfaceAddress.new.
Proof. repeat split; cbn; lia. Qed.

Lemma other_record_well_formed : well_formed other_record.
Proof. repeat split; cbn; lia. Qed.

Lemma loop_handle_terminated : terminated loop_handle.
Proof. unfold terminated. cbn. lia. Qed.

Example RemoveAddress_of_overlong_address :
  BNetworkInterface.RemoveAddress loop_handle overlong_record boot = None /\
  BNetworkInterface.AddAddress loop_handle overlong_record boot = None /\
  result (BNetworkInterface.AddAddress loop_handle overlong_record exhausted)
    = Some ENOSOCK.
Proof. repeat split. Qed.

Example GetStats_on_accepting_kernel :
  option_map (fun r => fst (fst r))
    (BNetworkInterface.GetStats (sys := accepting) loop_handle
       (repeat x00 60) tt)
    = Some (B_OK, repeat xaa 56 ++ repeat x00 4).
Proof. reflexivity. Qed.

Example GetStats_of_missing_interface :
  result (BNetworkInterface.GetStats ghost_handle (repeat x00 60) boot)
    = Some (ENODEV, repeat x00 60).
Proof. reflexivity. Qed.

Example HasLink_of_loop :
  result (BNetworkInterface.HasLink loop_handle boot) = Some true /\
  result (BNetworkInterface.HasLink ghost_handle boot) = Some false /\
  result (BNetworkInterface.HasLink loop_handle exhausted) = Some false.
Proof. repeat split. Qed.

Example new_index_not_found :
  result (BNetworkInterface.new_index raw 7 boot) = Some raw.
Proof. reflexivity. Qed.

Example handles_differ_after_the_terminator :
  loop_handle <> loop_handle_in_zeroed /\
  c_str (Name loop_handle) = c_str (Name loop_handle_in_zeroed).
Proof. split; [discriminate | reflexivity]. Qed.

(** *** The theorems of this part at concrete inputs *)

Lemma AddAddress_SetAddress_send_the_record_witness :
  well_formed other_record /\
  let g := stack_ifaliasreq (snd (sys_socket AF_INET SOCK_DGRAM 0 boot)) in
  let request :=
    {| ifra_name := strlcpy (ifra_name g) (Name loop_handle) IF_NAMESIZE;
       ifra_index := 5;
       ifra_addr := inet x7f x00 x00 x01 ++ skipn 16 (ifra_addr g);
       ifra_mask := inet xff xff xff x00 ++ skipn 16 (ifra_mask g);
       ifra_broadaddr := inet x7f x00 x00 xff ++ skipn 16 (ifra_broadaddr g);
       ifra_flags := 3 |} in
  exists w' evs o,
    round_trip ReqAlias AF_INET B_SOCKET_ADD_ALIAS request evs o /\
    BNetworkInterface.AddAddress loop_handle other_record boot
      = Some (status_of o, w', evs) /\
    (status_of o = B_OK <-> succeeded o = true).
Proof.
  split; [exact other_record_well_formed|].
  destruct (AddAddress_SetAddress_send_the_record (sys := system)
              loop_handle other_record boot other_record_well_formed)
    as ((w' & evs & o & RT & E & Hok) & _).
  exists w', evs, o. split; [exact RT|]. split; [exact E|].
  exact (Hok system_sets_errno).
Defined.

Lemma do_ifaliasreq_without_readBack_keeps_the_record_witness :
  exists status address' w' evs,
    do_ifaliasreq name_loop B_SOCKET_ADD_ALIAS other_record false boot
      = Some ((status, address'), w', evs) /\
    address' = other_record.
Proof.
  do 4 eexists. split; [vm_compute; reflexivity|].
  eapply (do_ifaliasreq_without_readBack_keeps_the_record (sys := system)
            name_loop B_SOCKET_ADD_ALIAS other_record _ boot).
  vm_compute. reflexivity.
Defined.


Lemma GetStats_copies_on_success_only_witness :
  sets_errno accepting /\
  exists w' evs o stats',
    round_trip ReqIf AF_INET SIOCGIFSTATS
      (set_ifr_name (stack_ifreq (System := accepting) tt)
         (strlcpy (ifr_name (stack_ifreq (System := accepting) tt))
            (Name loop_handle) IF_NAMESIZE)) evs o /\
    BNetworkInterface.GetStats (sys := accepting) loop_handle
      (repeat x00 60) tt
      = Some ((status_of o, stats'), w', evs) /\
    (status_of o = B_OK <-> succeeded o = true) /\
    (succeeded o = false -> stats' = repeat x00 60) /\
    forall reply,
      o = IoctlDone reply ->
      (IFREQ_STATS_SIZE <= length (ifr_stats reply))%nat ->
      firstn IFREQ_STATS_SIZE stats'
        = firstn IFREQ_STATS_SIZE (ifr_stats reply) /\
      skipn IFREQ_STATS_SIZE stats' = skipn IFREQ_STATS_SIZE (repeat x00 60) /\
      ((IFREQ_STATS_SIZE <= length (repeat x00 60))%nat ->
       length stats' = length (repeat x00 60)).
Proof.
  split; [exact accepting_sets_errno|].
  destruct (GetStats_copies_on_success_only (sys := accepting)
              accepting_sets_errno loop_handle (repeat x00 60) tt)
    as (w' & evs & o & stats' & H).
  exists w', evs, o, stats'. exact H.
Defined.

Lemma HasLink_false_on_failure_witness :
  sets_errno system /\
  exists w' evs o,
    round_trip ReqIf AF_INET SIOCGIFFLAGS
      (set_ifr_name (stack_ifreq exhausted)
         (strlcpy (ifr_name (stack_ifreq exhausted)) (Name loop_handle)
            IF_NAMESIZE)) evs o /\
    BNetworkInterface.HasLink loop_handle exhausted
      = Some (match o with
              | IoctlDone reply =>
                  negb (Z.land (to_uint32 (ifr_flags reply)) IFF_LINK =? 0)
              | _ => false
              end, w', evs).
Proof.
  split; [exact system_sets_errno|].
  exact (HasLink_false_on_failure system_sets_errno loop_handle exhausted).
Defined.

Lemma GetHardwareAddress_uses_a_link_socket_witness :
  sets_errno system /\
  let g := stack_ifreq (snd (sys_socket AF_LINK SOCK_DGRAM 0 boot)) in
  exists w' evs o,
    round_trip ReqIf AF_LINK SIOCGIFADDR
      (set_ifr_name g (strlcpy (ifr_name g) (Name loop_handle) IF_NAMESIZE))
      evs o /\
    BNetworkInterface.GetHardwareAddress loop_handle
      (al_addr loopback_alias) boot
      = Some ((status_of o,
               match o with
               | IoctlDone reply =>
                   BNetworkAddress_SetTo (al_addr loopback_alias)
                     (ifr_addr reply)
               | _ => al_addr loopback_alias
               end), w', evs) /\
    (status_of o = B_OK <-> succeeded o = true).
Proof.
  split; [exact system_sets_errno|].
  destruct (GetHardwareAddress_uses_a_link_socket (sys := system)
              (NA := address) loop_handle (al_addr loopback_alias) boot)
    as (w' & evs & o & RT & E & Hok).
  exists w', evs, o. split; [exact RT|]. split; [exact E|].
  exact (Hok system_sets_errno).
Defined.

Lemma new_index_leaves_storage_on_failure_witness :
  sets_errno system /\ (0 < IF_NAMESIZE)%nat /\
  let request :=
    set_ifr_name (set_ifr_int (stack_ifreq boot) 7)
      (strlcpy (ifr_name (stack_ifreq boot)) [NUL] IF_NAMESIZE) in
  c_str (ifr_name request) = [] /\
  exists w' evs o,
    round_trip ReqIf AF_INET SIOCGIFNAME request evs o /\
    BNetworkInterface.new_index raw 7 boot
      = Some (match o with
              | IoctlDone reply =>
                  {| fName := strlcpy (fName raw) (ifr_name reply)
                                IF_NAMESIZE |}
              | _ => raw
              end, w', evs).
Proof.
  assert (Hs : (0 < IF_NAMESIZE)%nat) by (cbn; lia).
  split; [exact system_sets_errno|]. split; [exact Hs|].
  destruct (new_index_leaves_storage_on_failure system_sets_errno raw 7 boot)
    as (Hn & H).
  split; [exact (Hn Hs) | exact H].
Defined.

Lemma setters_keep_the_name_terminated_witness :
  (0 < IF_NAMESIZE)%nat /\ length (fName raw) = IF_NAMESIZE /\
  valid (BNetworkInterface.Unset raw) /\
  c_str (Name (BNetworkInterface.Unset raw)) = [] /\
  valid (BNetworkInterface.new raw) /\
  valid (BNetworkInterface.SetTo raw long_name) /\
  valid (BNetworkInterface.new_name raw long_name) /\
  exists this' w' evs,
    BNetworkInterface.SetTo_index raw 1 boot
      = Some ((B_OK, this'), w', evs) /\
    valid this'.
Proof.
  assert (Hs : (0 < IF_NAMESIZE)%nat) by (cbn; lia).
  assert (Hl : length (fName raw) = IF_NAMESIZE) by reflexivity.
  destruct (setters_keep_the_name_terminated (sys := system) Hs raw
              long_name Hl) as (H1 & H2 & H3 & H4 & H5 & H6).
  repeat (split; [assumption|]).
  do 3 eexists. split; [vm_compute; reflexivity|].
  eapply (H6 1 boot); [vm_compute; reflexivity | left; reflexivity].
Defined.

Lemma operations_send_the_name_witness :
  terminated loop_handle /\
  emits (sys := system) (carries_name name_loop)
    (invoke (OpSetMTU 1500) loop_handle).
Proof.
  split; [exact loop_handle_terminated|].
  exact (operations_send_the_name (sys := system) loop_handle
           (OpSetMTU 1500) loop_handle_terminated).
Defined.

Lemma operations_depend_on_the_name_only_witness :
  c_str (Name loop_handle) = c_str (Name loop_handle_in_zeroed) /\
  same_run (sys := system) (invoke OpCountAddresses loop_handle)
    (invoke OpCountAddresses loop_handle_in_zeroed).
Proof.
  assert (H : c_str (Name loop_handle) = c_str (Name loop_handle_in_zeroed))
    by reflexivity.
  split; [exact H|].
  exact (operations_depend_on_the_name_only (sys := system) loop_handle
           loop_handle_in_zeroed H OpCountAddresses).
Defined.

Lemma operations_are_whole_round_trips_witness :
  exists r w' evs,
    invoke (OpRemoveAddressAt 0) loop_handle boot = Some (r, w', evs) /\
    (round_trips evs = Some 1%nat \/
     (exists index, OpRemoveAddressAt 0 = OpRemoveAddressAt index) /\
     round_trips evs = Some 2%nat).
Proof.
  do 3 eexists. split; [vm_compute; reflexivity|].
  eapply (proj1 (operations_are_whole_round_trips (sys := system))
            (OpRemoveAddressAt 0) loop_handle boot).
  vm_compute. reflexivity.
Defined.

Lemma int_member_round_trip_witness :
  0 <= 1500 < 2 ^ 32 /\
  to_uint32 (ifr_flags (set_ifr_int (stack_ifreq boot) 1500)) = 1500 /\
  to_uint32 (ifr_mtu (set_ifr_int (stack_ifreq boot) 1500)) = 1500 /\
  to_uint32 (ifr_type (set_ifr_int (stack_ifreq boot) 1500)) = 1500 /\
  ifr_name (set_ifr_int (stack_ifreq boot) 1500)
    = ifr_name (stack_ifreq boot) /\
  skipn sizeof_int (ifr_ifru (set_ifr_int (stack_ifreq boot) 1500))
    = skipn sizeof_int (ifr_ifru (stack_ifreq boot)).
Proof.
  assert (H : 0 <= 1500 < 2 ^ 32) by lia.
  split; [exact H|].
  exact (int_member_round_trip (stack_ifreq boot) 1500 H).
Defined.

Lemma filled_record_is_what_AddAddress_sends_witness :
  fits (inet x7f x00 x00 x01) /\ fits (inet xff x00 x00 x00) /\
  fits (inet x7f xff xff xff) /\
  filled (inet x7f x00 x00 x01) (inet xff x00 x00 x00)
    (inet x7f xff xff xff) 3
    = {| fIndex := 0; fFlags := 3; fAddress := inet x7f x00 x00 x01;
         fMask := inet xff x00 x00 x00;
         fBroadcast := inet x7f xff xff xff |} /\
  exists w' evs o,
    round_trip ReqAlias AF_INET B_SOCKET_ADD_ALIAS
      {| ifra_name := strlcpy (ifra_name (stack_ifaliasreq boot))
                        (Name loop_handle) IF_NAMESIZE;
         ifra_index := 0;
         ifra_addr := inet x7f x00 x00 x01 ++ skipn 16 filler;
         ifra_mask := inet xff x00 x00 x00 ++ skipn 16 filler;
         ifra_broadaddr := inet x7f xff xff xff ++ skipn 16 filler;
         ifra_flags := 3 |} evs o /\
    BNetworkInterface.AddAddress loop_handle
      (filled (inet x7f x00 x00 x01) (inet xff x00 x00 x00)
         (inet x7f xff xff xff) 3) boot
      = Some (status_of o, w', evs).
Proof.
  assert (Ha : fits (inet x7f x00 x00 x01)) by (split; cbn; lia).
  assert (Hm : fits (inet xff x00 x00 x00)) by (split; cbn; lia).
  assert (Hb : fits (inet x7f xff xff xff)) by (split; cbn; lia).
  repeat (split; [assumption|]).
  exact (filled_record_is_what_AddAddress_sends (sys := system) loop_handle
           _ _ _ 3 boot Ha Hm Hb).
Defined.

Lemma RemoveAddressAt_removes_the_alias_it_reads_witness :
  sets_errno system /\
  well_formed (NA := address) BNetworkInterfaceAddress.new /\
  exists query w1 evs1 o1,
    round_trip ReqAlias AF_INET B_SOCKET_GET_ALIAS query evs1 o1 /\
    ifra_index query = 0 /\
    match o1 with
    | IoctlDone reply =>
        let address :=
          BNetworkAddress_SetTo BNetworkAddress_new (ifra_addr reply) in
        let n := Length address in
        (n <= IFR_IFRU_SIZE)%nat -> (n <= length (SockAddr address))%nat ->
        exists w2 evs2 o2,
          round_trip ReqIf AF_INET B_SOCKET_REMOVE_ALIAS
            {| ifr_name := strlcpy (ifr_name (stack_ifreq w1))
                             (Name loop_handle) IF_NAMESIZE;
               ifr_ifru := firstn n (SockAddr address)
                           ++ skipn n (ifr_ifru (stack_ifreq w1)) |}
            evs2 o2 /\
          BNetworkInterface.RemoveAddressAt loop_handle 0 boot
            = Some (status_of o2, w2, evs1 ++ evs2)
    | _ =>
        BNetworkInterface.RemoveAddressAt loop_handle 0 boot
          = Some (status_of o1, w1, evs1)
    end.
Proof.
  split; [exact system_sets_errno|].
  split; [exact new_record_well_formed|].
  exact (RemoveAddressAt_removes_the_alias_it_reads system_sets_errno
           new_record_well_formed loop_handle 0 boot).
Defined.

Lemma queries_ask_no_change_witness :
  is_query (NA := address) OpHasLink = true /\
  emits (sys := system) asks_no_change (invoke OpHasLink loop_handle).
Proof.
  split; [reflexivity|].
  exact (queries_ask_no_change (sys := system) OpHasLink loop_handle
           eq_refl).
Defined.

Lemma SetTo_of_Name_copies_the_handle_witness :
  terminated loop_handle /\
  let copy := BNetworkInterface.SetTo zeroed (Name loop_handle) in
  c_str (Name copy) = c_str (Name loop_handle) /\
  forall op : Operation,
    same_run (sys := system) (invoke op copy) (invoke op loop_handle).
Proof.
  split; [exact loop_handle_terminated|].
  exact (SetTo_of_Name_copies_the_handle (sys := system) loop_handle zeroed
           loop_handle_terminated).
Defined.
End MoreRuns.
